(** * Private auctions: the off-chain mirror, the bid gateway and the RPC pool

    A shallow embedding of the TypeScript sources of the sealed-bid auction
    front end (webhook reconciler, auction and bid API routes, rate limiter,
    connection pool, prover and transaction builder), together with the
    properties of the specification that were checked against them.

    Conventions.
    - A byte is a [Z] in [0, 256); a [Buffer] / [Uint8Array] is a [list Z].
    - A JavaScript string is a Rocq [string], read as the sequence of its
      UTF-8 bytes, so [Buffer.from(s)] and [Buffer.from(s, 'utf-8')] are
      [bytes_of_string s].
    - 32-bit words are [Z] with the wrap-around written out ([mod 2^32]).
    - [async] functions are run to completion one after the other; an
      exception is a constructor of the result type. *)

From Stdlib Require Import ZArith List String Ascii Bool Lia DecimalString Sorted Permutation.
From stdpp Require Import gmap strings.
Import ListNotations.

#[local] Open Scope string_scope.
#[local] Open Scope list_scope.
#[local] Open Scope Z_scope.

(** ** Bytes, strings and hexadecimal *)

Definition byte_of_ascii (c : ascii) : Z := Z.of_N (N_of_ascii c).

Fixpoint bytes_of_string (s : string) : list Z :=
  match s with
  | EmptyString => []
  | String c s' => byte_of_ascii c :: bytes_of_string s'
  end.

Definition hex_digit (n : Z) : ascii :=
  if n <? 10 then ascii_of_N (Z.to_N (48 + n)) else ascii_of_N (Z.to_N (87 + n)).

(** [buf.toString('hex')] and [digest('hex')]: two lowercase digits a byte. *)
Fixpoint hex_of_bytes (bs : list Z) : string :=
  match bs with
  | [] => EmptyString
  | b :: bs' =>
      String (hex_digit (Z.shiftr b 4 mod 16))
        (String (hex_digit (Z.land b 15)) (hex_of_bytes bs'))
  end.

(** ** SHA-256 and HMAC-SHA256 (Node's [crypto] module, FIPS 180-4 / RFC 2104) *)

Module Sha256.

Definition mask32 : Z := 4294967295.
Definition wrap32 (x : Z) : Z := x mod 4294967296.
Definition add32 (x y : Z) : Z := wrap32 (x + y).
Definition rotr (n x : Z) : Z :=
  wrap32 (Z.lor (Z.shiftr x n) (Z.shiftl x (32 - n))).
Definition shr (n x : Z) : Z := Z.shiftr x n.
Definition not32 (x : Z) : Z := Z.lxor x mask32.

Definition Ch (x y z : Z) : Z := Z.lxor (Z.land x y) (Z.land (not32 x) z).
Definition Maj (x y z : Z) : Z :=
  Z.lxor (Z.lxor (Z.land x y) (Z.land x z)) (Z.land y z).
Definition Sigma0 (x : Z) : Z := Z.lxor (Z.lxor (rotr 2 x) (rotr 13 x)) (rotr 22 x).
Definition Sigma1 (x : Z) : Z := Z.lxor (Z.lxor (rotr 6 x) (rotr 11 x)) (rotr 25 x).
Definition sigma0 (x : Z) : Z := Z.lxor (Z.lxor (rotr 7 x) (rotr 18 x)) (shr 3 x).
Definition sigma1 (x : Z) : Z := Z.lxor (Z.lxor (rotr 17 x) (rotr 19 x)) (shr 10 x).

(** The round constants are the first 32 bits of the fractional parts of
    the cube roots of the first 64 primes, and the initial hash value those
    of the square roots of the first 8 primes; they are computed here. *)
Definition is_prime (n : Z) : bool :=
  forallb (fun d => negb (n mod d =? 0)) (map Z.of_nat (seq 2 (Z.to_nat n - 2))).

Definition primes : list Z :=
  Eval vm_compute in List.filter is_prime (map Z.of_nat (seq 2 310)).

(** The integer cube root below [2 ^ bits], found bit by bit from the top. *)
Fixpoint cube_root (bits : nat) (x acc : Z) : Z :=
  match bits with
  | O => acc
  | S bits' =>
      let candidate := acc + 2 ^ Z.of_nat bits' in
      if candidate * candidate * candidate <=? x
      then cube_root bits' x candidate
      else cube_root bits' x acc
  end.

Definition K : list Z :=
  Eval vm_compute in map (fun p => wrap32 (cube_root 40 (p * 2 ^ 96) 0)) primes.

Definition H0 : list Z :=
  Eval vm_compute in map (fun p => wrap32 (Z.sqrt (p * 2 ^ 64))) (firstn 8 primes).

(** Big-endian encodings. *)
Fixpoint be_bytes (n : nat) (x : Z) : list Z :=
  match n with
  | O => []
  | S n' => (Z.shiftr x (8 * Z.of_nat n')) mod 256 :: be_bytes n' x
  end.

Definition be_word (bs : list Z) : Z :=
  fold_left (fun acc b => acc * 256 + b) bs 0.

(** Padding: a one bit, zeros up to 56 mod 64, the bit length on 8 bytes. *)
Definition pad (msg : list Z) : list Z :=
  let len := Z.of_nat (length msg) in
  msg ++ [128] ++ repeat 0 (Z.to_nat ((55 - len) mod 64)) ++ be_bytes 8 (8 * len).

Fixpoint chunks (fuel : nat) (n : nat) (bs : list Z) : list (list Z) :=
  match fuel, bs with
  | O, _ => []
  | _, [] => []
  | S fuel', _ => firstn n bs :: chunks fuel' n (skipn n bs)
  end.

Definition words_of_block (block : list Z) : list Z :=
  map be_word (chunks 16 4 block).

(** Message schedule: [W_t] for [16 <= t < 64]. *)
Fixpoint extend (k : nat) (w : list Z) : list Z :=
  match k with
  | O => w
  | S k' =>
      let t := length w in
      let at_ i := nth (t - i) w 0 in
      extend k'
        (w ++ [add32 (add32 (sigma1 (at_ 2%nat)) (at_ 7%nat))
                     (add32 (sigma0 (at_ 15%nat)) (at_ 16%nat))])
  end.

Record regs := Regs { ra : Z; rb : Z; rc : Z; rd : Z; re : Z; rf : Z; rg : Z; rh : Z }.

Definition round (r : regs) (kw : Z * Z) : regs :=
  let t1 := add32 (add32 (add32 (rh r) (Sigma1 (re r))) (Ch (re r) (rf r) (rg r)))
                  (add32 (fst kw) (snd kw)) in
  let t2 := add32 (Sigma0 (ra r)) (Maj (ra r) (rb r) (rc r)) in
  Regs (add32 t1 t2) (ra r) (rb r) (rc r) (add32 (rd r) t1) (re r) (rf r) (rg r).

Definition regs_of (h : list Z) : regs :=
  Regs (nth 0 h 0) (nth 1 h 0) (nth 2 h 0) (nth 3 h 0)
       (nth 4 h 0) (nth 5 h 0) (nth 6 h 0) (nth 7 h 0).

Definition compress (h : list Z) (block : list Z) : list Z :=
  let w := extend 48 (words_of_block block) in
  let r0 := regs_of h in
  let r := fold_left round (combine K w) r0 in
  [ add32 (ra r0) (ra r); add32 (rb r0) (rb r); add32 (rc r0) (rc r);
    add32 (rd r0) (rd r); add32 (re r0) (re r); add32 (rf r0) (rf r);
    add32 (rg r0) (rg r); add32 (rh r0) (rh r) ].

(** The 32-byte digest. *)
Definition sha256 (msg : list Z) : list Z :=
  let p := pad msg in
  flat_map (be_bytes 4) (fold_left compress (chunks (length p) 64 p) H0).

(** RFC 2104 with a 64-byte block. *)
Definition hmac_key_block (key : list Z) : list Z :=
  let k := if (64 <? Z.of_nat (length key)) then sha256 key else key in
  k ++ repeat 0 (64 - length k)%nat.

Definition hmac (key msg : list Z) : list Z :=
  let kb := hmac_key_block key in
  sha256 (map (Z.lxor 0x5c) kb ++ sha256 (map (Z.lxor 0x36) kb ++ msg)).

End Sha256.

(** ** Exceptions

    A JavaScript computation either returns or throws; [Result] threads the
    thrown value through a sequence of calls. *)

Inductive Exn : Type :=
| RangeError (what : string)
| TypeError (what : string)
| Error (message : string).

Inductive Result (A : Type) : Type :=
| Ok (a : A)
| Throw (e : Exn).

Arguments Ok {A} a.
Arguments Throw {A} e.

Definition bind {A B : Type} (r : Result A) (k : A -> Result B) : Result B :=
  match r with
  | Ok a => k a
  | Throw e => Throw e
  end.

Notation "'do' x <- r ; k" := (bind r (fun x => k))
  (at level 10, x binder, r at level 100, k at level 200).

(** ** Node's [Buffer] *)

Module Buffer.

(** [Buffer.alloc(n)]: [n] zero bytes. *)
Definition alloc (n : nat) : list Z := repeat 0 n.

(** [Buffer.allocUnsafe(n)]: [n] bytes of unspecified content, given here
    by [junk] (cut or zero-filled to [n] bytes). *)
Definition allocUnsafe (junk : list Z) (n : nat) : list Z :=
  firstn n (junk ++ repeat 0 n).

(** [src.copy(target, targetStart)]: copies as many bytes of [src] as fit
    in [target] from [targetStart] on; nothing when [targetStart] is past
    the end. The rest of [src] is dropped without an error. *)
Definition copy (src target : list Z) (targetStart : nat) : list Z :=
  if (length target <=? targetStart)%nat then target
  else
    let nb := Nat.min (length src) (length target - targetStart) in
    firstn targetStart target ++ firstn nb src ++ skipn (targetStart + nb) target.

(** [buf[i] = v]: stores [v mod 256]; out of range, nothing happens. *)
Definition set (buf : list Z) (i : nat) (v : Z) : list Z :=
  if (i <? length buf)%nat then firstn i buf ++ [v mod 256] ++ skipn (S i) buf
  else buf.

(** [checkInt]: the value must be in [min, max] and the [width] bytes at
    [offset] must lie inside the buffer. *)
Definition checkInt (buf : list Z) (value lo hi : Z) (offset width : nat) : Result unit :=
  if (value <? lo) || (hi <? value) then Throw (RangeError "value")
  else if (length buf <? offset + width)%nat then Throw (RangeError "offset")
  else Ok tt.

(** [buf.writeUInt32LE(value, offset)]. *)
Definition writeUInt32LE (buf : list Z) (value : Z) (offset : nat) : Result (list Z) :=
  do _ <- checkInt buf value 0 4294967295 offset 4 ;
  let buf := set buf offset value in
  let value := Z.shiftr value 8 in
  let buf := set buf (offset + 1) value in
  let value := Z.shiftr value 8 in
  let buf := set buf (offset + 2) value in
  let value := Z.shiftr value 8 in
  let buf := set buf (offset + 3) value in
  Ok buf.

(** [buf.writeBigUInt64LE(value, offset)]: the low and the high 32-bit
    halves, each written low byte first. *)
Definition writeBigUInt64LE (buf : list Z) (value : Z) (offset : nat) : Result (list Z) :=
  do _ <- checkInt buf value 0 18446744073709551615 offset 8 ;
  let lo := Z.land value 4294967295 in
  let buf := set buf offset lo in
  let lo := Z.shiftr lo 8 in
  let buf := set buf (offset + 1) lo in
  let lo := Z.shiftr lo 8 in
  let buf := set buf (offset + 2) lo in
  let lo := Z.shiftr lo 8 in
  let buf := set buf (offset + 3) lo in
  let hi := Z.land (Z.shiftr value 32) 4294967295 in
  let buf := set buf (offset + 4) hi in
  let hi := Z.shiftr hi 8 in
  let buf := set buf (offset + 5) hi in
  let hi := Z.shiftr hi 8 in
  let buf := set buf (offset + 6) hi in
  let hi := Z.shiftr hi 8 in
  let buf := set buf (offset + 7) hi in
  Ok buf.

(** [buf.subarray(0, end)]: [end] is clamped to the length. *)
Definition subarray (buf : list Z) (stop : nat) : list Z := firstn stop buf.

(** [Buffer.from(s, 'hex')]: decodes pairs of hexadecimal digits and stops
    at the first pair that is not one. *)
Definition hex_value (c : ascii) : option Z :=
  let n := byte_of_ascii c in
  if (48 <=? n) && (n <=? 57) then Some (n - 48)
  else if (97 <=? n) && (n <=? 102) then Some (n - 87)
  else if (65 <=? n) && (n <=? 70) then Some (n - 55)
  else None.

Fixpoint from_hex (s : string) : list Z :=
  match s with
  | String c1 (String c2 s') =>
      match hex_value c1, hex_value c2 with
      | Some h, Some l => (16 * h + l) :: from_hex s'
      | _, _ => []
      end
  | _ => []
  end.

End Buffer.

(** ** lib/noir/prover.ts: the commitment hash *)

Module Prover.

(** [crypto.createHash('sha256')]: the bytes fed so far. *)
Record Hash := { fed : list Z }.

Definition createHash : Hash := {| fed := [] |}.
Definition update (h : Hash) (data : list Z) : Hash := {| fed := fed h ++ data |}.
Definition digest_hex (h : Hash) : string := hex_of_bytes (Sha256.sha256 (fed h)).

(** [junk] is what [Buffer.allocUnsafe(8)] happens to hold. *)
Definition generateCommitmentHash (junk : list Z)
    (bidAmount : Z) (salt : list Z) (bidderPubkey : string) : Result string :=
  let hash := createHash in
  let amountBuffer := Buffer.allocUnsafe junk 8 in
  do amountBuffer <- Buffer.writeBigUInt64LE amountBuffer bidAmount 0 ;
  let hash := update hash amountBuffer in
  let hash := update hash salt in
  let hash := update hash (bytes_of_string bidderPubkey) in
  Ok (digest_hex hash).

(** [generateProofHash]. *)
Definition generateProofHash (proof : list Z) : string :=
  digest_hex (update createHash proof).

(** The commitment as the specification writes it: the amount on 8 bytes,
    least significant first, then the salt, then the key. *)
Fixpoint le_bytes (n : nat) (x : Z) : list Z :=
  match n with
  | O => []
  | S n' => x mod 256 :: le_bytes n' (x / 256)
  end.

Definition spec_commitment (bidAmount : Z) (salt : list Z) (bidderPubkey : string) : string :=
  hex_of_bytes
    (Sha256.sha256 (le_bytes 8 bidAmount ++ salt ++ bytes_of_string bidderPubkey)).

End Prover.

(** ** lib/solana/transactions.ts: the submit-bid transaction *)

Module Transactions.

(** Addresses are kept symbolic: a key given in base 58, a program-derived
    address named by its seeds and program ([findProgramAddressSync]), or an
    associated token account named by its mint and owner. A seed is either
    raw bytes or the 32 bytes of a key ([toBuffer]). *)
Inductive PublicKey : Type :=
| Base58 (s : string)
| ProgramAddress (seeds : list Seed) (programId : PublicKey)
| AssociatedTokenAddress (mint owner : PublicKey)
| SystemProgram_programId
| TOKEN_PROGRAM_ID
with Seed : Type :=
| SeedBytes (bs : list Z)
| SeedKey (key : PublicKey).

Definition PRIVATE_AUCTION_PROGRAM_ID : PublicKey :=
  Base58 "AuctionPrvt1111111111111111111111111111111".

(** Instruction discriminators. *)
Definition CREATE_AUCTION : list Z := [0].
Definition SUBMIT_BID : list Z := [1].
Definition REVEAL_BID : list Z := [2].
Definition SETTLE_AUCTION : list Z := [3].
Definition CANCEL_AUCTION : list Z := [4].

Record AccountMeta := {
  pubkey : PublicKey;
  isSigner : bool;
  isWritable : bool
}.

Inductive Instruction : Type :=
| SetComputeUnitPrice (microLamports : Z)
| SetComputeUnitLimit (units : Z)
| TransactionInstruction (keys : list AccountMeta) (programId : PublicKey) (data : list Z).

Record Transaction := {
  recentBlockhash : string;
  feePayer : PublicKey;
  instructions : list Instruction
}.

Record TransactionResult := {
  transaction : Transaction;
  signers : list PublicKey
}.

Inductive PriorityLevel := low | medium | high.

Definition priorityFees (l : PriorityLevel) : Z :=
  match l with
  | low => 10000
  | medium => 50000
  | high => 200000
  end.

(** [transaction.instructions.unshift(computeBudgetIx, computeLimitIx)]. *)
Definition addPriorityFee (tx : Transaction) (priorityLevel : PriorityLevel) : Transaction :=
  let computeBudgetIx := SetComputeUnitPrice (priorityFees priorityLevel) in
  let computeLimitIx := SetComputeUnitLimit 400000 in
  {| recentBlockhash := recentBlockhash tx;
     feePayer := feePayer tx;
     instructions := computeBudgetIx :: computeLimitIx :: instructions tx |}.

Record SubmitBidParams := {
  auctionId : PublicKey;
  bidder : PublicKey;
  commitmentHash : list Z;
  proof : list Z;
  proofHash : list Z;
  paymentMint : PublicKey;
  collateralAmount : Z
}.

(** The instruction data of [buildSubmitBidTransaction]: a 256-byte
    zeroed buffer filled at a running offset and cut at the final one. *)
Definition submitBidData (params : SubmitBidParams) : Result (list Z) :=
  let data := Buffer.alloc 256 in
  let offset := 0%nat in
  let data := Buffer.copy SUBMIT_BID data offset in
  let offset := (offset + 1)%nat in
  let data := Buffer.copy (commitmentHash params) data offset in
  let offset := (offset + 32)%nat in
  let data := Buffer.copy (proofHash params) data offset in
  let offset := (offset + 32)%nat in
  do data <- Buffer.writeUInt32LE data (Z.of_nat (length (proof params))) offset ;
  let offset := (offset + 4)%nat in
  let data := Buffer.copy (proof params) data offset in
  let offset := (offset + length (proof params))%nat in
  Ok (Buffer.subarray data offset).

(** [blockhash] is what [getRecentBlockhash()] gave, or what it threw once
    the retries were used up. *)
Definition buildSubmitBidTransaction (blockhash : Result string)
    (params : SubmitBidParams) : Result TransactionResult :=
  do blockhash <- blockhash ;
  let bidPDA :=
    ProgramAddress [SeedBytes (bytes_of_string "bid"); SeedKey (auctionId params); SeedKey (bidder params)]
                   PRIVATE_AUCTION_PROGRAM_ID in
  let escrowPDA :=
    ProgramAddress [SeedBytes (bytes_of_string "escrow"); SeedKey (auctionId params)]
                   PRIVATE_AUCTION_PROGRAM_ID in
  let collateralPoolPDA :=
    ProgramAddress [SeedBytes (bytes_of_string "collateral_pool"); SeedKey (paymentMint params)]
                   PRIVATE_AUCTION_PROGRAM_ID in
  let bidderTokenAccount := AssociatedTokenAddress (paymentMint params) (bidder params) in
  do data <- submitBidData params ;
  let instruction :=
    TransactionInstruction
      [ {| pubkey := auctionId params; isSigner := false; isWritable := true |};
        {| pubkey := bidPDA; isSigner := false; isWritable := true |};
        {| pubkey := bidder params; isSigner := true; isWritable := true |};
        {| pubkey := bidderTokenAccount; isSigner := false; isWritable := true |};
        {| pubkey := escrowPDA; isSigner := false; isWritable := true |};
        {| pubkey := collateralPoolPDA; isSigner := false; isWritable := true |};
        {| pubkey := SystemProgram_programId; isSigner := false; isWritable := false |};
        {| pubkey := TOKEN_PROGRAM_ID; isSigner := false; isWritable := false |} ]
      PRIVATE_AUCTION_PROGRAM_ID
      data in
  let transaction :=
    {| recentBlockhash := blockhash;
       feePayer := bidder params;
       instructions := [instruction] |} in
  let transaction := addPriorityFee transaction medium in
  Ok {| transaction := transaction; signers := [] |}.

(** Two parameter records that agree on everything but the collateral. *)
Definition same_but_collateral (p q : SubmitBidParams) : Prop :=
  auctionId p = auctionId q /\ bidder p = bidder q /\
  commitmentHash p = commitmentHash q /\ proof p = proof q /\
  proofHash p = proofHash q /\ paymentMint p = paymentMint q.

End Transactions.

(** ** lib/solana/connection.ts: the connection pool *)

Module ConnectionPool.

Inductive Connection := primaryConnection | fallbackConnection.

Definition Connection_eqb (a b : Connection) : bool :=
  match a, b with
  | primaryConnection, primaryConnection => true
  | fallbackConnection, fallbackConnection => true
  | _, _ => false
  end.

Record Pool := {
  currentConnection : Connection;
  consecutiveFailures : nat
}.

(** Declared by the class and read by none of its methods. *)
Definition maxFailures : nat := 3.

Definition constructor : Pool :=
  {| currentConnection := primaryConnection; consecutiveFailures := 0 |}.

Definition getConnection (pool : Pool) : Connection := currentConnection pool.

(** [getSlot c] tells whether endpoint [c] answers the probe. *)
Definition checkHealth (getSlot : Connection -> bool) (pool : Pool) : bool * Pool :=
  if getSlot (currentConnection pool)
  then (true, {| currentConnection := currentConnection pool; consecutiveFailures := 0 |})
  else (false, {| currentConnection := currentConnection pool;
                  consecutiveFailures := S (consecutiveFailures pool) |}).

Definition switchToFallback (pool : Pool) : Pool :=
  {| currentConnection := fallbackConnection; consecutiveFailures := 0 |}.

Definition tryPrimary (getSlot : Connection -> bool) (pool : Pool) : Pool :=
  if getSlot primaryConnection
  then {| currentConnection := primaryConnection;
          consecutiveFailures := consecutiveFailures pool |}
  else pool.

(** One firing of the timer set up by [startHealthCheck]. *)
Definition healthCheckTick (getSlot : Connection -> bool) (pool : Pool) : Pool :=
  let (healthy, pool) := checkHealth getSlot pool in
  if negb healthy && Connection_eqb (currentConnection pool) primaryConnection
  then switchToFallback pool
  else if healthy && Connection_eqb (currentConnection pool) fallbackConnection
  then tryPrimary getSlot pool
  else pool.

(** A run of firings, one probe environment a firing. *)
Definition healthCheckTicks (probes : list (Connection -> bool)) (pool : Pool) : Pool :=
  fold_left (fun pool getSlot => healthCheckTick getSlot pool) probes pool.

(** What [executeWithRetry] does that can be watched from outside. *)
Inductive Effect : Type :=
| Called (attempt : nat) (connection : Connection)
| Slept (attempt : nat) (delay : Z)
| SwitchedToFallback (attempt : nat).

Section Retry.

Context {T E : Type}.

(** The operation, by attempt index and connection: a value or an error. *)
Variable operation : nat -> Connection -> E + T.

Inductive Outcome : Type :=
| Returned (value : T)
| Thrown (lastError : option E).

Record Run := {
  outcome : Outcome;
  pool_after : Pool;
  effects : list Effect
}.

(** The [for] loop, from [attempt] on; [fuel] is [maxRetries - attempt]. *)
Fixpoint retryLoop (fuel : nat) (maxRetries attempt : nat) (pool : Pool)
    (lastError : option E) (trace : list Effect) : Run :=
  match fuel with
  | O => {| outcome := Thrown lastError; pool_after := pool; effects := trace |}
  | S fuel' =>
      let trace := trace ++ [Called attempt (currentConnection pool)] in
      match operation attempt (currentConnection pool) with
      | inr value =>
          {| outcome := Returned value; pool_after := pool; effects := trace |}
      | inl error =>
          let lastError := Some error in
          let trace :=
            if (attempt <? maxRetries - 1)%nat
            then trace ++ [Slept attempt (2 ^ Z.of_nat attempt * 1000)]
            else trace in
          let '(pool, trace) :=
            if (attempt =? 1)%nat
               && Connection_eqb (currentConnection pool) primaryConnection
            then (switchToFallback pool, trace ++ [SwitchedToFallback attempt])
            else (pool, trace) in
          retryLoop fuel' maxRetries (S attempt) pool lastError trace
      end
  end.




End Retry.


End ConnectionPool.

(** ** lib/rate-limit.ts: rate limiting *)

Module RateLimit.

Inductive LimiterType := bidSubmission | auctionCreation | proofVerification | apiRequest.

(** [Ratelimit.slidingWindow(tokens, window)], the window in milliseconds,
    and the key prefix of each limiter of [rateLimiters]. *)
Definition tokens (type : LimiterType) : nat :=
  match type with
  | bidSubmission => 10
  | auctionCreation => 5
  | proofVerification => 100
  | apiRequest => 100
  end.

Definition window (type : LimiterType) : Z :=
  match type with
  | auctionCreation => 3600000
  | _ => 60000
  end.

Definition prefix (type : LimiterType) : string :=
  match type with
  | bidSubmission => "ratelimit:bid"
  | auctionCreation => "ratelimit:auction"
  | proofVerification => "ratelimit:proof"
  | apiRequest => "ratelimit:api"
  end.

(** The shared counter store: for each key, the times (in milliseconds) of
    the requests admitted so far. *)
Abbreviation Redis := (gmap string (list Z)).

Record LimitResponse := {
  success : bool;
  limit : nat;
  remaining : nat;
  reset : Z
}.

Definition in_window (now w : Z) (t : Z) : bool := now - w <? t.

(** Modelled from the spec: the [@upstash/ratelimit] library is not part
    of the sources. A sliding window of [tokens] requests per [window]: a
    request is admitted when fewer than [tokens] admitted requests of the
    same key lie within the last [window] milliseconds, and only an
    admitted request is counted. *)
Definition limiter_limit (type : LimiterType) (identifier : string) (now : Z)
    (redis : Redis) : LimitResponse * Redis :=
  let key := prefix type +:+ ":" +:+ identifier in
  let recent := filter (fun t => in_window now (window type) t = true)
                       (default [] (redis !! key)) in
  let used := length recent in
  if (used <? tokens type)%nat
  then ({| success := true; limit := tokens type;
           remaining := (tokens type - used - 1)%nat; reset := now + window type |},
        <[key := recent ++ [now]]> redis)
  else ({| success := false; limit := tokens type;
           remaining := 0%nat; reset := now + window type |},
        <[key := recent]> redis).

(** [checkRateLimit(identifier, type = 'apiRequest')]: [None] is a call
    that leaves [type] out. *)
Definition checkRateLimit (identifier : string) (type : option LimiterType) (now : Z)
    (redis : Redis) : Result LimitResponse * Redis :=
  let type := default apiRequest type in
  let '(r, redis) := limiter_limit type identifier now redis in
  if negb (success r) then (Throw (Error "Rate limit exceeded"), redis)
  else (Ok r, redis).

End RateLimit.

(** ** The mirror: the tables of the off-chain database *)

Module Mirror.

(** [AUCTION_STATUS] of lib/constants.ts. *)
Inductive AuctionStatus := pending | active | revealing | settled | cancelled.

Definition AuctionStatus_eqb (a b : AuctionStatus) : bool :=
  match a, b with
  | pending, pending | active, active | revealing, revealing
  | settled, settled | cancelled, cancelled => true
  | _, _ => false
  end.

Inductive ProductType := nft | physical | digital | service.

Inductive FulfillmentStatus :=
  fulfillment_pending | shipped | delivered | disputed.

(** Rows carry the columns the routes and handlers read or write. *)
Record AuctionRow := {
  a_on_chain_id : option string;
  a_seller_id : string;
  a_status : AuctionStatus;
  a_bid_count : Z;
  a_created_at : Z;
  a_ends_at : Z;
  a_product_type : ProductType;
  a_payment_mint : option string;
  a_title : string
}.

Record BidRow := {
  b_id : Z;
  b_auction_id : string;
  b_bidder_id : string;
  b_commitment_hash : string;
  b_on_chain_id : option string;
  b_revealed : bool;
  b_amount : option Z;
  b_timestamp : Z
}.

Record FulfillmentRow := {
  f_auction_id : string;
  f_buyer_id : string;
  f_seller_id : string;
  f_status : FulfillmentStatus
}.

Record UserRow := {
  u_id : string;
  u_privy_id : string;
  u_wallet_addresses : list string
}.

Record Db := {
  auctions : list AuctionRow;
  bids : list BidRow;
  fulfillments : list FulfillmentRow;
  users : list UserRow
}.

Definition with_auctions (db : Db) (rows : list AuctionRow) : Db :=
  {| auctions := rows; bids := bids db;
     fulfillments := fulfillments db; users := users db |}.

Definition with_bids (db : Db) (rows : list BidRow) : Db :=
  {| auctions := auctions db; bids := rows;
     fulfillments := fulfillments db; users := users db |}.

Definition with_fulfillments (db : Db) (rows : list FulfillmentRow) : Db :=
  {| auctions := auctions db; bids := bids db;
     fulfillments := rows; users := users db |}.

(** [.eq(column, value)] on a nullable text column. *)
Definition is_id (column : option string) (value : string) : bool :=
  match column with
  | Some x => String.eqb x value
  | None => false
  end.

(** [.single()]: the row when exactly one matches, an error otherwise. *)
Definition single {A : Type} (rows : list A) : option A :=
  match rows with
  | [row] => Some row
  | _ => None
  end.

Definition set_a_status (st : AuctionStatus) (a : AuctionRow) : AuctionRow :=
  {| a_on_chain_id := a_on_chain_id a; a_seller_id := a_seller_id a;
     a_status := st; a_bid_count := a_bid_count a;
     a_created_at := a_created_at a; a_ends_at := a_ends_at a;
     a_product_type := a_product_type a; a_payment_mint := a_payment_mint a;
     a_title := a_title a |}.

Definition set_a_on_chain_id (id : string) (a : AuctionRow) : AuctionRow :=
  {| a_on_chain_id := Some id; a_seller_id := a_seller_id a;
     a_status := a_status a; a_bid_count := a_bid_count a;
     a_created_at := a_created_at a; a_ends_at := a_ends_at a;
     a_product_type := a_product_type a; a_payment_mint := a_payment_mint a;
     a_title := a_title a |}.

Definition set_a_bid_count (n : Z) (a : AuctionRow) : AuctionRow :=
  {| a_on_chain_id := a_on_chain_id a; a_seller_id := a_seller_id a;
     a_status := a_status a; a_bid_count := n;
     a_created_at := a_created_at a; a_ends_at := a_ends_at a;
     a_product_type := a_product_type a; a_payment_mint := a_payment_mint a;
     a_title := a_title a |}.

Definition set_a_title (t : string) (a : AuctionRow) : AuctionRow :=
  {| a_on_chain_id := a_on_chain_id a; a_seller_id := a_seller_id a;
     a_status := a_status a; a_bid_count := a_bid_count a;
     a_created_at := a_created_at a; a_ends_at := a_ends_at a;
     a_product_type := a_product_type a; a_payment_mint := a_payment_mint a;
     a_title := t |}.

Definition set_b_on_chain_id (id : string) (b : BidRow) : BidRow :=
  {| b_id := b_id b; b_auction_id := b_auction_id b; b_bidder_id := b_bidder_id b;
     b_commitment_hash := b_commitment_hash b; b_on_chain_id := Some id;
     b_revealed := b_revealed b; b_amount := b_amount b;
     b_timestamp := b_timestamp b |}.

Definition set_b_revealed (amount : Z) (b : BidRow) : BidRow :=
  {| b_id := b_id b; b_auction_id := b_auction_id b; b_bidder_id := b_bidder_id b;
     b_commitment_hash := b_commitment_hash b; b_on_chain_id := b_on_chain_id b;
     b_revealed := true; b_amount := Some amount;
     b_timestamp := b_timestamp b |}.

(** [update(...)] with [.eq] filters: every matching row is rewritten. *)
Definition update_where {A : Type} (matches : A -> bool) (f : A -> A)
    (rows : list A) : list A :=
  map (fun row => if matches row then f row else row) rows.

(** Modelled from the spec: the stored procedure [increment_bid_count] is
    not part of the sources. It adds one to [bid_count] of the auction
    whose [on_chain_id] is the argument. *)
Definition increment_bid_count (auction_on_chain_id : string)
    (rows : list AuctionRow) : list AuctionRow :=
  update_where (fun a => is_id (a_on_chain_id a) auction_on_chain_id)
               (fun a => set_a_bid_count (a_bid_count a + 1) a) rows.


End Mirror.

(** ** HTTP responses of the API routes *)

Module Http.

Inductive Json : Type :=
| JError (error : string)
| JInvalidRequest
| JSuccess
| JAuction (row : Mirror.AuctionRow)
| JBid (bidId : Z) (transaction : Transactions.Transaction).

Record Response := { status : Z; json : Json }.

Definition NextResponse_json (j : Json) (st : Z) : Response :=
  {| status := st; json := j |}.

End Http.

(** ** api/webhooks/helius/route.ts: the event reconciler *)

Module Webhook.
Import Mirror Http.

(** The fields of [event.accountData] that each handler reads. *)
Record AuctionCreatedData := { auctionPubkey : string; seller : string }.

Record BidSubmittedData := {
  submitted_auctionId : string;
  submitted_bidId : string;
  submitted_commitmentHash : string
}.

Record BidRevealedData := { revealed_bidId : string; revealed_amount : Z }.

Record AuctionSettledData := {
  settled_auctionId : string;
  winner : string;
  settlementAmount : Z
}.

(** [HeliusWebhookEvent], by [event.type]. *)
Inductive HeliusWebhookEvent : Type :=
| AUCTION_CREATED (data : AuctionCreatedData)
| BID_SUBMITTED (data : BidSubmittedData)
| BID_REVEALED (data : BidRevealedData)
| AUCTION_SETTLED (data : AuctionSettledData)
| DELIVERY_CONFIRMED
| DISPUTE_RAISED
| OtherType (type : string).

Record Request := {
  body : string;
  x_helius_signature : option string
}.

(** [crypto.timingSafeEqual(a, b)]: throws unless both have the same
    number of bytes. *)
Definition timingSafeEqual (a b : list Z) : Result bool :=
  if negb (length a =? length b)%nat
  then Throw (RangeError "Input buffers must have the same byte length")
  else Ok (forallb (fun xy => fst xy =? snd xy) (combine a b)).

(** Position of the row hit by [.eq('seller_id', seller).eq('status',
    'pending').order('created_at', { ascending: false }).limit(1)]: the
    pending row of the seller created last (the first such row when several
    share that time). [i] is the position of the head of [rows]. *)
Fixpoint latest_pending (seller : string) (rows : list AuctionRow) (i : nat)
    (best : option (nat * Z)) : option nat :=
  match rows with
  | [] => fst <$> best
  | a :: rows' =>
      let best' :=
        if String.eqb (a_seller_id a) seller && AuctionStatus_eqb (a_status a) pending
        then match best with
             | Some (_, t) =>
                 if t <? a_created_at a then Some (i, a_created_at a) else best
             | None => Some (i, a_created_at a)
             end
        else best in
      latest_pending seller rows' (S i) best'
  end.

Section Deployment.

(** The shared secret of the environment. *)
Variable HELIUS_WEBHOOK_SECRET : string.

(** [JSON.parse(body)] read as a list of events; it throws on a body
    that is not one. *)
Variable JSON_parse : string -> Result (list HeliusWebhookEvent).

(** Whether the table [fulfillments] (whose schema is not part of the
    sources) refuses a second row with the same [auction_id]. *)
Variable fulfillments_auction_id_unique : bool.

Definition verifySignature (payload signature : string) : Result bool :=
  let expectedSignature :=
    hex_of_bytes (Sha256.hmac (bytes_of_string HELIUS_WEBHOOK_SECRET)
                              (bytes_of_string payload)) in
  timingSafeEqual (bytes_of_string signature) (bytes_of_string expectedSignature).

Definition handleAuctionCreated (data : AuctionCreatedData) (db : Db) : Db :=
  match latest_pending (seller data) (auctions db) 0 None with
  | Some i =>
      with_auctions db
        (alter (fun a => set_a_status active (set_a_on_chain_id (auctionPubkey data) a))
               i (auctions db))
  | None => db
  end.

Definition handleBidSubmitted (data : BidSubmittedData) (db : Db) : Db :=
  let auctionId := submitted_auctionId data in
  let bidId := submitted_bidId data in
  let commitmentHash := submitted_commitmentHash data in
  let db :=
    with_bids db
      (update_where
         (fun b => String.eqb (b_commitment_hash b) commitmentHash
                   && String.eqb (b_auction_id b) auctionId)
         (set_b_on_chain_id bidId) (bids db)) in
  with_auctions db (increment_bid_count auctionId (auctions db)).

Definition handleBidRevealed (data : BidRevealedData) (db : Db) : Db :=
  let bidId := revealed_bidId data in
  let amount := revealed_amount data in
  with_bids db
    (update_where (fun b => is_id (b_on_chain_id b) bidId)
                  (set_b_revealed amount) (bids db)).

(** [.from('fulfillments').insert(row)]; a refused insert is logged and
    changes nothing. *)
Definition insert_fulfillment (row : FulfillmentRow)
    (rows : list FulfillmentRow) : list FulfillmentRow :=
  if fulfillments_auction_id_unique
     && existsb (fun f => String.eqb (f_auction_id f) (f_auction_id row)) rows
  then rows
  else rows ++ [row].

Definition handleAuctionSettled (data : AuctionSettledData) (db : Db) : Db :=
  let auctionId := settled_auctionId data in
  let db :=
    with_auctions db
      (update_where (fun a => is_id (a_on_chain_id a) auctionId)
                    (set_a_status settled) (auctions db)) in
  let auction :=
    single (filter (fun a => is_id (a_on_chain_id a) auctionId = true) (auctions db)) in
  let winnerUser :=
    single (filter (fun u => existsb (String.eqb (winner data)) (u_wallet_addresses u) = true)
                   (users db)) in
  match auction, winnerUser with
  | Some auction, Some winnerUser =>
      with_fulfillments db
        (insert_fulfillment
           {| f_auction_id := auctionId;
              f_buyer_id := u_id winnerUser;
              f_seller_id := a_seller_id auction;
              f_status := fulfillment_pending |}
           (fulfillments db))
  | _, _ => db
  end.

(** The [switch] on [event.type]. *)
Definition dispatch (event : HeliusWebhookEvent) (db : Db) : Db :=
  match event with
  | AUCTION_CREATED data => handleAuctionCreated data db
  | BID_SUBMITTED data => handleBidSubmitted data db
  | BID_REVEALED data => handleBidRevealed data db
  | AUCTION_SETTLED data => handleAuctionSettled data db
  | DELIVERY_CONFIRMED => db
  | DISPUTE_RAISED => db
  | OtherType _ => db
  end.

Definition process (events : list HeliusWebhookEvent) (db : Db) : Db :=
  fold_left (fun db event => dispatch event db) events db.

Definition internal_error : Response :=
  NextResponse_json (JError "Internal server error") 500.

Definition POST (request : Request) (db : Db) : Response * Db :=
  match x_helius_signature request with
  | None => (NextResponse_json (JError "Missing signature") 401, db)
  | Some "" => (NextResponse_json (JError "Missing signature") 401, db)
  | Some signature =>
      match verifySignature (body request) signature with
      | Throw _ => (internal_error, db)
      | Ok false => (NextResponse_json (JError "Invalid signature") 401, db)
      | Ok true =>
          match JSON_parse (body request) with
          | Throw _ => (internal_error, db)
          | Ok events => (NextResponse_json JSuccess 200, process events db)
          end
      end
  end.

End Deployment.

End Webhook.

(** ** api/auctions/[id]/route.ts: updating and cancelling an auction *)

Module AuctionRoute.
Import Mirror Http.

(** The body of a PATCH request: the columns it asks to overwrite. The
    route passes it to the database as it came. *)
Record AuctionUpdates := {
  upd_status : option AuctionStatus;
  upd_bid_count : option Z;
  upd_title : option string
}.

Definition apply_updates (updates : AuctionUpdates) (a : AuctionRow) : AuctionRow :=
  let a := match upd_status updates with Some st => set_a_status st a | None => a end in
  let a := match upd_bid_count updates with Some n => set_a_bid_count n a | None => a end in
  match upd_title updates with Some t => set_a_title t a | None => a end.

(** The embedded [users!auctions_seller_id_fkey(privy_id)]. *)
Definition seller_of (db : Db) (auction : AuctionRow) : option UserRow :=
  List.find (fun u => String.eqb (u_id u) (a_seller_id auction)) (users db).

Definition by_on_chain_id (auctionId : string) (rows : list AuctionRow) : list AuctionRow :=
  filter (fun a => is_id (a_on_chain_id a) auctionId = true) rows.

Definition internal_error : Response :=
  NextResponse_json (JError "Internal server error") 500.

(** [session] is [session.user.id] when there is a session; [json] is
    what [request.json()] returns or throws. *)
Definition PATCH (session : option string) (auctionId : string)
    (json : Result AuctionUpdates) (db : Db) : Response * Db :=
  match json with
  | Throw _ => (internal_error, db)
  | Ok updates =>
  match session with
  | None => (NextResponse_json (JError "Unauthorized") 401, db)
  | Some user_id =>
  match single (by_on_chain_id auctionId (auctions db)) with
  | None => (NextResponse_json (JError "Auction not found") 404, db)
  | Some auction =>
  match seller_of db auction with
  | None => (internal_error, db)
  | Some owner =>
      if negb (String.eqb (u_privy_id owner) user_id)
      then (NextResponse_json (JError "Forbidden") 403, db)
      else if negb (AuctionStatus_eqb (a_status auction) pending)
              && negb (AuctionStatus_eqb (a_status auction) active)
      then (NextResponse_json (JError "Auction cannot be modified") 400, db)
      else
        let rows :=
          update_where (fun a => is_id (a_on_chain_id a) auctionId)
                       (apply_updates updates) (auctions db) in
        let db := with_auctions db rows in
        match single (by_on_chain_id auctionId rows) with
        | None => (NextResponse_json (JError "Failed to update auction") 500, db)
        | Some updated => (NextResponse_json (JAuction updated) 200, db)
        end
  end end end end.

Definition DELETE (session : option string) (auctionId : string)
    (db : Db) : Response * Db :=
  match session with
  | None => (NextResponse_json (JError "Unauthorized") 401, db)
  | Some user_id =>
  match single (by_on_chain_id auctionId (auctions db)) with
  | None => (NextResponse_json (JError "Auction not found") 404, db)
  | Some auction =>
  match seller_of db auction with
  | None => (internal_error, db)
  | Some owner =>
      if negb (String.eqb (u_privy_id owner) user_id)
      then (NextResponse_json (JError "Forbidden") 403, db)
      else if 0 <? a_bid_count auction
      then (NextResponse_json (JError "Cannot cancel auction with bids") 400, db)
      else
        (NextResponse_json JSuccess 200,
         with_auctions db
           (update_where (fun a => is_id (a_on_chain_id a) auctionId)
                         (set_a_status cancelled) (auctions db)))
  end end end.

End AuctionRoute.

(** ** lib/noir/verifier.ts: the proof gateway *)

Module Verifier.

(** What loading the circuit and [noir.verifyFinalProof] come to. *)
Inductive Outcome := Returns (isValid : bool) | Throws.

(** [verifyProof(proof, publicInputs)]: the [catch] turns an exception
    into [false]. The only public input is the commitment hash. *)
Definition verifyProof (verifyFinalProof : list Z -> string -> Outcome)
    (proof : list Z) (publicInputs : string) : bool :=
  match verifyFinalProof proof publicInputs with
  | Returns isValid => isValid
  | Throws => false
  end.

End Verifier.

(** ** api/auctions/[id]/bids/route.ts: submitting a bid *)

Module BidRoute.
Import Mirror Http.

(** The request body once parsed; [proof] holds the bytes that the body
    carries in base 64. *)
Record BidBody := {
  commitmentHash : string;
  proof : list Z;
  proofHash : string;
  collateralAmount : Z
}.

(** [submitBidSchema]. *)
Definition submitBidSchema (b : BidBody) : bool :=
  (String.length (commitmentHash b) =? 64)%nat
  && (String.length (proofHash b) =? 64)%nat
  && (0 <? collateralAmount b).

(** What the route finds around it: the clock (milliseconds), the external
    verifier, the RPC answer for the recent blockhash, and the validity
    check of [new PublicKey(s)]. *)
Record Env := {
  now : Z;
  verifyFinalProof : list Z -> string -> Verifier.Outcome;
  getRecentBlockhash : Result string;
  is_PublicKey : string -> bool
}.

Record State := { db : Db; redis : RateLimit.Redis }.

Definition with_redis (st : State) (r : RateLimit.Redis) : State :=
  {| db := db st; redis := r |}.

Definition with_db (st : State) (d : Db) : State :=
  {| db := d; redis := redis st |}.

Definition internal_error : Response :=
  NextResponse_json (JError "Internal server error") 500.

Definition SOL_MINT : string := "So11111111111111111111111111111111111111112".

Definition POST (env : Env) (session : option string) (auctionId : string)
    (json : Result BidBody) (st : State) : Response * State :=
  match json with
  | Throw _ => (internal_error, st)
  | Ok validatedData =>
  if negb (submitBidSchema validatedData)
  then (NextResponse_json JInvalidRequest 400, st)
  else
  match session with
  | None => (NextResponse_json (JError "Unauthorized") 401, st)
  | Some user_id =>
  let rateLimitKey := "bid:" +:+ user_id +:+ ":" +:+ auctionId in
  let '(limited, redis') := RateLimit.checkRateLimit rateLimitKey None (now env) (redis st) in
  let st := with_redis st redis' in
  match limited with
  | Throw _ =>
      (NextResponse_json
         (JError "Rate limit exceeded. Please wait before submitting another bid.") 429,
       st)
  | Ok _ =>
  match single (filter (fun u => String.eqb (u_privy_id u) user_id = true) (users (db st))) with
  | None => (NextResponse_json (JError "User not found") 404, st)
  | Some user =>
  match u_wallet_addresses user with
  | [] => (internal_error, st)
  | wallet :: _ =>
  if negb (is_PublicKey env wallet) then (internal_error, st)
  else
  let bidderPubkey := Transactions.Base58 wallet in
  match single (AuctionRoute.by_on_chain_id auctionId (auctions (db st))) with
  | None => (NextResponse_json (JError "Auction not found") 404, st)
  | Some auction =>
  if negb (AuctionStatus_eqb (a_status auction) active)
  then (NextResponse_json (JError "Auction is not accepting bids") 400, st)
  else if a_ends_at auction <? now env
  then (NextResponse_json (JError "Auction has ended") 400, st)
  else
  match single (filter (fun b => String.eqb (b_auction_id b) auctionId
                                 && String.eqb (b_bidder_id b) (u_id user) = true)
                       (bids (db st))) with
  | Some existingBid =>
      (NextResponse_json (JError "You already have a bid on this auction") 400, st)
  | None =>
  let proofBuffer := proof validatedData in
  let publicInputs := commitmentHash validatedData in
  let isValidProof :=
    Verifier.verifyProof (verifyFinalProof env) proofBuffer publicInputs in
  if negb isValidProof
  then (NextResponse_json (JError "Invalid proof") 400, st)
  else
  if negb (is_PublicKey env auctionId) then (internal_error, st)
  else
  let mint := default SOL_MINT (a_payment_mint auction) in
  if negb (is_PublicKey env mint) then (internal_error, st)
  else
  match Transactions.buildSubmitBidTransaction (getRecentBlockhash env)
          {| Transactions.auctionId := Transactions.Base58 auctionId;
             Transactions.bidder := bidderPubkey;
             Transactions.commitmentHash := Buffer.from_hex (commitmentHash validatedData);
             Transactions.proof := proofBuffer;
             Transactions.proofHash := Buffer.from_hex (proofHash validatedData);
             Transactions.paymentMint := Transactions.Base58 mint;
             Transactions.collateralAmount := collateralAmount validatedData |} with
  | Throw _ => (internal_error, st)
  | Ok result =>
      let bid :=
        {| b_id := Z.of_nat (length (bids (db st))) + 1;
           b_auction_id := auctionId;
           b_bidder_id := u_id user;
           b_commitment_hash := commitmentHash validatedData;
           b_on_chain_id := None;
           b_revealed := false;
           b_amount := None;
           b_timestamp := now env |} in
      (NextResponse_json (JBid (b_id bid) (Transactions.transaction result)) 200,
       with_db st (with_bids (db st) (bids (db st) ++ [bid])))
  end end end end end end end end.

End BidRoute.

(** ** Concrete mirrors, requests and environments used as test inputs *)

Module Scenario.
Import Mirror.

Definition salt : list Z := repeat 7 32%nat.
Definition bidderKey : string := "9xQeWvG816bUx9EPjHmaT23yvVM2ZWbrrpZb9PusVFin".

(** The commitment to an amount of 7 under [salt] and [bidderKey]. *)
Definition commitment7 : string :=
  Eval vm_compute in Prover.spec_commitment 7 salt bidderKey.

Definition seller1 : UserRow :=
  {| u_id := "u-seller"; u_privy_id := "privy-seller"; u_wallet_addresses := ["SellerWallet"] |}.

Definition bidder1 : UserRow :=
  {| u_id := "u-bidder"; u_privy_id := "privy-bidder"; u_wallet_addresses := [bidderKey] |}.

Definition auctionA (st : AuctionStatus) (bid_count : Z) : AuctionRow :=
  {| a_on_chain_id := Some "auction-A"; a_seller_id := "u-seller";
     a_status := st; a_bid_count := bid_count;
     a_created_at := 1000; a_ends_at := 5000000;
     a_product_type := digital; a_payment_mint := None;
     a_title := "lot" |}.

(** The bid committed to 7, confirmed on chain as [bid-1], not revealed. *)
Definition sealedBid : BidRow :=
  {| b_id := 1; b_auction_id := "auction-A"; b_bidder_id := "u-bidder";
     b_commitment_hash := commitment7; b_on_chain_id := Some "bid-1";
     b_revealed := false; b_amount := None; b_timestamp := 2000 |}.

Definition mirror (st : AuctionStatus) (bid_count : Z) (bs : list BidRow) : Db :=
  {| auctions := [auctionA st bid_count]; bids := bs;
     fulfillments := []; users := [seller1; bidder1] |}.

(** A reveal of [bid-1] that announces 5. *)
Definition reveal5 : Webhook.BidRevealedData :=
  {| Webhook.revealed_bidId := "bid-1"; Webhook.revealed_amount := 5 |}.

Definition submitted1 : Webhook.BidSubmittedData :=
  {| Webhook.submitted_auctionId := "auction-A";
     Webhook.submitted_bidId := "bid-1";
     Webhook.submitted_commitmentHash := commitment7 |}.

Definition settledA : Webhook.AuctionSettledData :=
  {| Webhook.settled_auctionId := "auction-A";
     Webhook.winner := bidderKey;
     Webhook.settlementAmount := 7 |}.

(** A well-formed submission for [auction-A]. *)
Definition bidBody : BidRoute.BidBody :=
  {| BidRoute.commitmentHash := commitment7;
     BidRoute.proof := [1; 2; 3];
     BidRoute.proofHash :=
       "00000000000000000000000000000000000000000000000000000000000000ff";
     BidRoute.collateralAmount := 1 |}.

(** The surroundings at time [t]: every key is valid, the RPC answers, and
    the verifier does what [verdict] says. *)
Definition env_at (verdict : Verifier.Outcome) (t : Z) : BidRoute.Env :=
  {| BidRoute.now := t;
     BidRoute.verifyFinalProof := fun _ _ => verdict;
     BidRoute.getRecentBlockhash := Ok "blockhash";
     BidRoute.is_PublicKey := fun _ => true |}.

Definition fresh : BidRoute.State :=
  {| BidRoute.db := mirror active 0 []; BidRoute.redis := ∅ |}.

(** The same bidder submits at each time of [times], in turn. *)
Fixpoint submissions (verdict : Verifier.Outcome) (times : list Z) (st : BidRoute.State)
    : list Http.Response * BidRoute.State :=
  match times with
  | [] => ([], st)
  | t :: times' =>
      let '(response, st) :=
        BidRoute.POST (env_at verdict t) (Some "privy-bidder") "auction-A" (Ok bidBody) st in
      let '(responses, st) := submissions verdict times' st in
      (response :: responses, st)
  end.

(** Calls of the limiter declared for bid submissions, at each time. *)
Fixpoint bidSubmission_checks (times : list Z) (redis : RateLimit.Redis) : list bool :=
  match times with
  | [] => []
  | t :: times' =>
      let '(r, redis) :=
        RateLimit.limiter_limit RateLimit.bidSubmission "bid:privy-bidder:auction-A" t redis in
      RateLimit.success r :: bidSubmission_checks times' redis
  end.

(** Eleven submissions, one a second. *)
Definition eleven : list Z :=
  [0; 1000; 2000; 3000; 4000; 5000; 6000; 7000; 8000; 9000; 10000].

End Scenario.

(** ** Replaying events: what a batch of reveals does to one bid row *)

Module Replay.
Import Mirror Webhook.

(** Events whose handler writes nothing but reveals. *)
Definition reveals_only (event : HeliusWebhookEvent) : bool :=
  match event with
  | BID_REVEALED _ | DELIVERY_CONFIRMED | DISPUTE_RAISED | OtherType _ => true
  | AUCTION_CREATED _ | BID_SUBMITTED _ | AUCTION_SETTLED _ => false
  end.

(** The effect of one event on one bid row. *)
Definition reveal_row (event : HeliusWebhookEvent) (b : BidRow) : BidRow :=
  match event with
  | BID_REVEALED data =>
      if is_id (b_on_chain_id b) (revealed_bidId data)
      then set_b_revealed (revealed_amount data) b
      else b
  | _ => b
  end.

Definition reveal_rows (events : list HeliusWebhookEvent) (b : BidRow) : BidRow :=
  fold_left (fun b event => reveal_row event b) events b.

(** The amount of the last reveal in [events] that names [id]. *)
Fixpoint last_reveal (events : list HeliusWebhookEvent) (id : option string) : option Z :=
  match events with
  | [] => None
  | event :: events' =>
      match last_reveal events' id with
      | Some amount => Some amount
      | None =>
          match event with
          | BID_REVEALED data =>
              if is_id id (revealed_bidId data) then Some (revealed_amount data) else None
          | _ => None
          end
      end
  end.

End Replay.

(** ** Node's [Buffer]: further writers and the little-endian value *)

Module BufferWriters.

(** [buf.writeUInt8(value, offset)]. *)
Definition writeUInt8 (buf : list Z) (value : Z) (offset : nat) : Result (list Z) :=
  do _ <- Buffer.checkInt buf value 0 255 offset 1 ;
  Ok (Buffer.set buf offset value).

(** [buf.writeBigInt64LE(value, offset)]: as the unsigned writer, with the
    signed range; a negative value is written in two's complement. *)
Definition writeBigInt64LE (buf : list Z) (value : Z) (offset : nat) : Result (list Z) :=
  do _ <- Buffer.checkInt buf value (-9223372036854775808) 9223372036854775807 offset 8 ;
  let lo := Z.land value 4294967295 in
  let buf := Buffer.set buf offset lo in
  let lo := Z.shiftr lo 8 in
  let buf := Buffer.set buf (offset + 1) lo in
  let lo := Z.shiftr lo 8 in
  let buf := Buffer.set buf (offset + 2) lo in
  let lo := Z.shiftr lo 8 in
  let buf := Buffer.set buf (offset + 3) lo in
  let hi := Z.land (Z.shiftr value 32) 4294967295 in
  let buf := Buffer.set buf (offset + 4) hi in
  let hi := Z.shiftr hi 8 in
  let buf := Buffer.set buf (offset + 5) hi in
  let hi := Z.shiftr hi 8 in
  let buf := Buffer.set buf (offset + 6) hi in
  let hi := Z.shiftr hi 8 in
  let buf := Buffer.set buf (offset + 7) hi in
  Ok buf.

(** The number that a run of bytes spells, least significant byte first. *)
Definition le_value (bs : list Z) : Z := fold_right (fun b acc => b + 256 * acc) 0 bs.

End BufferWriters.

(** ** lib/solana/transactions.ts: the reveal-bid and create-auction
    transactions *)

Module RevealBid.

Record RevealBidParams := {
  auctionId : Transactions.PublicKey;
  bidder : Transactions.PublicKey;
  amount : Z;
  salt : list Z;
  proof : list Z
}.

(** The instruction data of [buildRevealBidTransaction]. *)
Definition revealBidData (params : RevealBidParams) : Result (list Z) :=
  let data := Buffer.alloc 256 in
  let offset := 0%nat in
  let data := Buffer.copy Transactions.REVEAL_BID data offset in
  let offset := (offset + 1)%nat in
  do data <- Buffer.writeBigUInt64LE data (amount params) offset ;
  let offset := (offset + 8)%nat in
  let data := Buffer.copy (salt params) data offset in
  let offset := (offset + 32)%nat in
  do data <- Buffer.writeUInt32LE data (Z.of_nat (length (proof params))) offset ;
  let offset := (offset + 4)%nat in
  let data := Buffer.copy (proof params) data offset in
  let offset := (offset + length (proof params))%nat in
  Ok (Buffer.subarray data offset).

Definition buildRevealBidTransaction (blockhash : Result string)
    (params : RevealBidParams) : Result Transactions.TransactionResult :=
  do blockhash <- blockhash ;
  let bidPDA :=
    Transactions.ProgramAddress
      [Transactions.SeedBytes (bytes_of_string "bid");
       Transactions.SeedKey (auctionId params); Transactions.SeedKey (bidder params)]
      Transactions.PRIVATE_AUCTION_PROGRAM_ID in
  do data <- revealBidData params ;
  let instruction :=
    Transactions.TransactionInstruction
      [ {| Transactions.pubkey := auctionId params;
           Transactions.isSigner := false; Transactions.isWritable := true |};
        {| Transactions.pubkey := bidPDA;
           Transactions.isSigner := false; Transactions.isWritable := true |};
        {| Transactions.pubkey := bidder params;
           Transactions.isSigner := true; Transactions.isWritable := false |} ]
      Transactions.PRIVATE_AUCTION_PROGRAM_ID
      data in
  let transaction :=
    {| Transactions.recentBlockhash := blockhash;
       Transactions.feePayer := bidder params;
       Transactions.instructions := [instruction] |} in
  Ok {| Transactions.transaction := transaction; Transactions.signers := [] |}.

End RevealBid.

Module CreateAuction.

(** [duration] and [revealDuration] are whole numbers of seconds ([BigInt]
    of anything else throws); [minBidIncrement] and [bidCollateral] are the
    numbers of the request. *)
Record CreateAuctionParams := {
  seller : Transactions.PublicKey;
  productType : Z;
  category : Z;
  reservePriceHash : list Z;
  duration : Z;
  revealDuration : Z;
  ipfsHash : string;
  title : string;
  description : string;
  images : list string;
  paymentMint : Transactions.PublicKey;
  minBidIncrement : Z;
  bidCollateral : Z;
  nftMint : option Transactions.PublicKey
}.

(** The instruction data of [buildCreateAuctionTransaction]: a 1024-byte
    zeroed buffer filled at a running offset and cut at the final one. *)
Definition createAuctionData (params : CreateAuctionParams) : Result (list Z) :=
  let data := Buffer.alloc 1024 in
  let offset := 0%nat in
  let data := Buffer.copy Transactions.CREATE_AUCTION data offset in
  let offset := (offset + 1)%nat in
  do data <- BufferWriters.writeUInt8 data (productType params) offset ;
  let offset := (offset + 1)%nat in
  do data <- BufferWriters.writeUInt8 data (category params) offset ;
  let offset := (offset + 1)%nat in
  let data := Buffer.copy (reservePriceHash params) data offset in
  let offset := (offset + 32)%nat in
  do data <- BufferWriters.writeBigInt64LE data (duration params) offset ;
  let offset := (offset + 8)%nat in
  do data <- BufferWriters.writeBigInt64LE data (revealDuration params) offset ;
  let offset := (offset + 8)%nat in
  let ipfsHashBuffer := bytes_of_string (ipfsHash params) in
  do data <- Buffer.writeUInt32LE data (Z.of_nat (length ipfsHashBuffer)) offset ;
  let offset := (offset + 4)%nat in
  let data := Buffer.copy ipfsHashBuffer data offset in
  let offset := (offset + length ipfsHashBuffer)%nat in
  let titleBuffer := bytes_of_string (title params) in
  do data <- Buffer.writeUInt32LE data (Z.of_nat (length titleBuffer)) offset ;
  let offset := (offset + 4)%nat in
  let data := Buffer.copy titleBuffer data offset in
  let offset := (offset + length titleBuffer)%nat in
  Ok (Buffer.subarray data offset).



End CreateAuction.

(** ** The connection that each attempt of a retry runs on *)

Module RetryPlan.
Import ConnectionPool.



End RetryPlan.

(** ** What identifies a row, and which rows an event is aimed at *)

Module Rows.
Import Mirror.

(** The columns of a bid that no event handler writes. *)
Definition bid_identity (b : BidRow) : Z * string * string * string * Z :=
  (b_id b, b_auction_id b, b_bidder_id b, b_commitment_hash b, b_timestamp b).

(** What every event handler keeps of a bid. *)
Definition bid_kept (old new : BidRow) : Prop :=
  bid_identity new = bid_identity old /\
  (b_revealed old = true -> b_revealed new = true).



(** Events that [dispatch] hands to no handler. *)
Definition has_no_handler (event : Webhook.HeliusWebhookEvent) : bool :=
  match event with
  | Webhook.DELIVERY_CONFIRMED | Webhook.DISPUTE_RAISED | Webhook.OtherType _ => true
  | _ => false
  end.

(** The bids of one bidder on one auction, as the bid route looks them up. *)
Definition bids_of (auctionId bidderId : string) (rows : list BidRow) : list BidRow :=
  filter (fun b => String.eqb (b_auction_id b) auctionId
                   && String.eqb (b_bidder_id b) bidderId = true) rows.

End Rows.

(** ** api/auctions/[id]/bids/route.ts: reading one's bids *)

Module BidsGet.
Import Mirror.

Inductive Body : Type :=
| BError (error : string)
| BBids (rows : list BidRow).

Record Response := { status : Z; body : Body }.

(** [.order('timestamp', { ascending: false })]: latest first; rows of the
    same time stay in the order of the table. *)
Fixpoint insert_by_timestamp (b : BidRow) (sorted : list BidRow) : list BidRow :=
  match sorted with
  | [] => [b]
  | x :: rest =>
      if b_timestamp x <=? b_timestamp b
      then b :: sorted
      else x :: insert_by_timestamp b rest
  end.

Definition order_by_timestamp_desc (rows : list BidRow) : list BidRow :=
  fold_right insert_by_timestamp [] rows.

Definition GET (session : option string) (auctionId : string) (db : Db) : Response :=
  match session with
  | None => {| status := 401; body := BError "Unauthorized" |}
  | Some user_id =>
      match single (filter (fun u => String.eqb (u_privy_id u) user_id = true) (users db)) with
      | None => {| status := 404; body := BError "User not found" |}
      | Some user =>
          {| status := 200;
             body := BBids (order_by_timestamp_desc
                              (Rows.bids_of auctionId (u_id user) (bids db))) |}
      end
  end.

End BidsGet.

(** ** lib/rate-limit.ts: reading a counter *)

Module RateLimitInfo.
Import RateLimit.

Record Info := { count : Z; reset : Z }.

(** The key [`${rateLimiters[type].prefix}:${identifier}`]. *)
Definition key (type : LimiterType) (identifier : string) : string :=
  prefix type +:+ ":" +:+ identifier.

(** [getRateLimitInfo(identifier, type = 'apiRequest')]; [ttl] and [get] are
    [redis.ttl] and [redis.get], [now] is [Date.now()]. *)
Definition getRateLimitInfo (ttl : string -> Z) (get : string -> option Z) (now : Z)
    (identifier : string) (type : option LimiterType) : Info :=
  let type := default apiRequest type in
  let key := key type identifier in
  let ttl := ttl key in
  let count := get key in
  {| count := default 0 count;
     reset := if 0 <? ttl then now + ttl * 1000 else 0 |}.

End RateLimitInfo.

(** * Properties *)

(** ** Sanity checks of the primitives against published test vectors *)

Example sha256_abc :
  hex_of_bytes (Sha256.sha256 (bytes_of_string "abc"))
  = "ba7816bf8f01cfea414140de5dae2223b00361a396177a9cb410ff61f20015ad".
Proof. vm_compute. reflexivity. Qed.

Example sha256_empty :
  hex_of_bytes (Sha256.sha256 [])
  = "e3b0c44298fc1c149afbf4c8996fb92427ae41e4649b934ca495991b7852b855".
Proof. vm_compute. reflexivity. Qed.

Example hmac_rfc4231_2 :
  hex_of_bytes (Sha256.hmac (bytes_of_string "Jefe")
                            (bytes_of_string "what do ya want for nothing?"))
  = "5bdcc146bf60754e6a042426089575c75a003f089d2739839dec58b964ec3843".
Proof. vm_compute. reflexivity. Qed.

Example le_bytes_258 : Prover.le_bytes 8 258 = [2; 1; 0; 0; 0; 0; 0; 0].
Proof. reflexivity. Qed.

Example writeBigUInt64LE_258 :
  Buffer.writeBigUInt64LE (Buffer.allocUnsafe [9; 9; 9] 8) 258 0
  = Ok [2; 1; 0; 0; 0; 0; 0; 0].
Proof. reflexivity. Qed.

Example writeBigUInt64LE_overflow :
  Buffer.writeBigUInt64LE (Buffer.alloc 8) 18446744073709551616 0
  = Throw (RangeError "value").
Proof. reflexivity. Qed.

Example copy_truncates : Buffer.copy [1; 2; 3] [0; 0; 0; 0] 2 = [0; 0; 1; 2].
Proof. reflexivity. Qed.

Example from_hex_ok : Buffer.from_hex "00ff1G22" = [0; 255].
Proof. reflexivity. Qed.

(** ** The commitment hash (prover) *)

Lemma allocUnsafe_length junk n : length (Buffer.allocUnsafe junk n) = n.
Proof.
  unfold Buffer.allocUnsafe.
  rewrite List.length_firstn, List.length_app, List.repeat_length. lia.
Qed.

Lemma byte_of_halves (v : Z) (s : Z) :
  0 <= v -> s = 0 \/ s = 8 \/ s = 16 \/ s = 24 ->
  Z.shiftr (Z.land v 4294967295) s mod 256 = (v / 2 ^ s) mod 256.
Proof.
  intros Hv Hs.
  change 4294967295 with (Z.ones 32).
  rewrite Z.land_ones by lia.
  rewrite Z.shiftr_div_pow2 by lia.
  destruct Hs as [-> | [-> | [-> | ->]]].
  - change (2 ^ 32) with 4294967296. change (2 ^ 0) with 1.
    Z.div_mod_to_equations; lia.
  - change (2 ^ 32) with 4294967296. change (2 ^ 8) with 256.
    Z.div_mod_to_equations; lia.
  - change (2 ^ 32) with 4294967296. change (2 ^ 16) with 65536.
    Z.div_mod_to_equations; lia.
  - change (2 ^ 32) with 4294967296. change (2 ^ 24) with 16777216.
    Z.div_mod_to_equations; lia.
Qed.

Lemma writeBigUInt64LE_le_bytes junk v :
  0 <= v < 2 ^ 64 ->
  Buffer.writeBigUInt64LE (Buffer.allocUnsafe junk 8) v 0 = Ok (Prover.le_bytes 8 v).
Proof.
  intros Hv.
  pose proof (allocUnsafe_length junk 8) as Hlen.
  destruct (Buffer.allocUnsafe junk 8) as [|b0 [|b1 [|b2 [|b3 [|b4 [|b5 [|b6 [|b7 [|]]]]]]]]];
    try discriminate Hlen.
  unfold Buffer.writeBigUInt64LE, Buffer.checkInt.
  replace (v <? 0) with false by (symmetry; apply Z.ltb_ge; lia).
  replace (18446744073709551615 <? v) with false
    by (symmetry; apply Z.ltb_ge; change (2 ^ 64) with 18446744073709551616 in Hv; lia).
  cbn -[Z.land Z.shiftr Z.modulo Z.div].
  rewrite !Z.shiftr_shiftr by lia.
  change (8 + 8) with 16. change (16 + 8) with 24.
  assert (Hh : 0 <= Z.shiftr v 32) by (apply Z.shiftr_nonneg; lia).
  rewrite <- (Z.shiftr_0_r (Z.land v 4294967295)) at 1.
  rewrite <- (Z.shiftr_0_r (Z.land (Z.shiftr v 32) 4294967295)) at 1.
  rewrite !byte_of_halves by (try lia; auto).
  rewrite (Z.shiftr_div_pow2 v 32) by lia.
  change (2 ^ 32) with 4294967296. change (2 ^ 0) with 1. change (2 ^ 8) with 256.
  change (2 ^ 16) with 65536. change (2 ^ 24) with 16777216.
  change (2 ^ 64) with 18446744073709551616 in Hv.
  apply f_equal.
  repeat (apply (f_equal2 cons); [Z.div_mod_to_equations; lia|]).
  reflexivity.
Qed.

(** C9. For every amount that fits 64 unsigned bits, every salt and every
    bidder key, the prover's commitment is the hexadecimal SHA-256 digest of
    the amount as 8 little-endian bytes, followed by the salt bytes, followed
    by the UTF-8 bytes of the key; the uninitialised buffer leaves no trace. *)
Theorem generateCommitmentHash_is_spec_commitment
    (junk : list Z) (bidAmount : Z) (salt : list Z) (bidderPubkey : string) :
  0 <= bidAmount < 2 ^ 64 ->
  Prover.generateCommitmentHash junk bidAmount salt bidderPubkey
  = Ok (Prover.spec_commitment bidAmount salt bidderPubkey).
Proof.
  intros Hv. unfold Prover.generateCommitmentHash.
  rewrite (writeBigUInt64LE_le_bytes junk bidAmount Hv). cbn [bind].
  unfold Prover.spec_commitment, Prover.digest_hex, Prover.update, Prover.createHash.
  cbn [Prover.fed]. rewrite <- !List.app_assoc. reflexivity.
Qed.

Lemma generateCommitmentHash_witness :
  0 <= 7 < 2 ^ 64 /\
  Prover.generateCommitmentHash [9; 9; 9] 7 Scenario.salt Scenario.bidderKey
  = Ok (Prover.spec_commitment 7 Scenario.salt Scenario.bidderKey).
Proof.
  split; [lia|].
  apply (generateCommitmentHash_is_spec_commitment [9; 9; 9] 7 Scenario.salt Scenario.bidderKey).
  lia.
Defined.

(** ** The submit-bid transaction *)

Example submitBidData_layout :
  Transactions.submitBidData
    {| Transactions.auctionId := Transactions.Base58 "A";
       Transactions.bidder := Transactions.Base58 "B";
       Transactions.commitmentHash := repeat 17 32;
       Transactions.proof := [7; 8; 9];
       Transactions.proofHash := repeat 34 32;
       Transactions.paymentMint := Transactions.Base58 "M";
       Transactions.collateralAmount := 5 |}
  = Ok ([1] ++ repeat 17 32 ++ repeat 34 32 ++ [3; 0; 0; 0] ++ [7; 8; 9]).
Proof. reflexivity. Qed.

(** A proof longer than the 187 bytes left in the buffer is cut, while its
    length prefix still announces all of it. *)
Example submitBidData_cuts_long_proofs :
  Transactions.submitBidData
    {| Transactions.auctionId := Transactions.Base58 "A";
       Transactions.bidder := Transactions.Base58 "B";
       Transactions.commitmentHash := repeat 17 32;
       Transactions.proof := repeat 9 300;
       Transactions.proofHash := repeat 34 32;
       Transactions.paymentMint := Transactions.Base58 "M";
       Transactions.collateralAmount := 5 |}
  = Ok ([1] ++ repeat 17 32 ++ repeat 34 32 ++ [44; 1; 0; 0] ++ repeat 9 187).
Proof. reflexivity. Qed.

(** C10. Two calls of [buildSubmitBidTransaction] whose parameters differ in
    nothing but [collateralAmount] build byte-for-byte the same instruction
    data, and indeed the same transaction: the collateral is never encoded. *)
Theorem submit_bid_ignores_collateral
    (blockhash : Result string) (p q : Transactions.SubmitBidParams) :
  Transactions.same_but_collateral p q ->
  Transactions.submitBidData p = Transactions.submitBidData q /\
  Transactions.buildSubmitBidTransaction blockhash p
  = Transactions.buildSubmitBidTransaction blockhash q.
Proof.
  intros (Ha & Hb & Hc & Hp & Hh & Hm).
  assert (Hdata : Transactions.submitBidData p = Transactions.submitBidData q).
  { unfold Transactions.submitBidData. rewrite Hc, Hp, Hh. reflexivity. }
  split; [exact Hdata|].
  unfold Transactions.buildSubmitBidTransaction.
  rewrite Hdata, Ha, Hb, Hm. reflexivity.
Qed.

Lemma submit_bid_ignores_collateral_witness :
  let p := {| Transactions.auctionId := Transactions.Base58 "auction-A";
              Transactions.bidder := Transactions.Base58 Scenario.bidderKey;
              Transactions.commitmentHash := Buffer.from_hex Scenario.commitment7;
              Transactions.proof := [1; 2; 3];
              Transactions.proofHash := repeat 0 32;
              Transactions.paymentMint := Transactions.Base58 BidRoute.SOL_MINT;
              Transactions.collateralAmount := 1 |} in
  let q := {| Transactions.auctionId := Transactions.Base58 "auction-A";
              Transactions.bidder := Transactions.Base58 Scenario.bidderKey;
              Transactions.commitmentHash := Buffer.from_hex Scenario.commitment7;
              Transactions.proof := [1; 2; 3];
              Transactions.proofHash := repeat 0 32;
              Transactions.paymentMint := Transactions.Base58 BidRoute.SOL_MINT;
              Transactions.collateralAmount := 1000000000 |} in
  Transactions.same_but_collateral p q /\
  Transactions.submitBidData p = Transactions.submitBidData q /\
  Transactions.buildSubmitBidTransaction (Ok "blockhash") p
  = Transactions.buildSubmitBidTransaction (Ok "blockhash") q.
Proof.
  cbv zeta.
  assert (Hsame : Transactions.same_but_collateral
            {| Transactions.auctionId := Transactions.Base58 "auction-A";
               Transactions.bidder := Transactions.Base58 Scenario.bidderKey;
               Transactions.commitmentHash := Buffer.from_hex Scenario.commitment7;
               Transactions.proof := [1; 2; 3];
               Transactions.proofHash := repeat 0 32;
               Transactions.paymentMint := Transactions.Base58 BidRoute.SOL_MINT;
               Transactions.collateralAmount := 1 |}
            {| Transactions.auctionId := Transactions.Base58 "auction-A";
               Transactions.bidder := Transactions.Base58 Scenario.bidderKey;
               Transactions.commitmentHash := Buffer.from_hex Scenario.commitment7;
               Transactions.proof := [1; 2; 3];
               Transactions.proofHash := repeat 0 32;
               Transactions.paymentMint := Transactions.Base58 BidRoute.SOL_MINT;
               Transactions.collateralAmount := 1000000000 |})
    by (repeat split; reflexivity).
  split; [exact Hsame|].
  exact (submit_bid_ignores_collateral (Ok "blockhash") _ _ Hsame).
Defined.

(** ** The reveal handler *)

Example commitment_of_7 :
  Prover.generateCommitmentHash [] 7 Scenario.salt Scenario.bidderKey
  = Ok Scenario.commitment7.
Proof. vm_compute. reflexivity. Qed.

(** C1, refuted as stated. The mirror holds a bid committed to the amount 7;
    a reveal event for it announces 5. The recomputed hash of 5 differs from
    the stored commitment, and yet the handler marks the bid revealed and
    writes the amount 5. *)
Lemma reveal_without_hash_check :
  let db := Scenario.mirror Mirror.revealing 1 [Scenario.sealedBid] in
  let db' := Webhook.handleBidRevealed Scenario.reveal5 db in
  String.eqb (Prover.spec_commitment 5 Scenario.salt Scenario.bidderKey)
             (Mirror.b_commitment_hash Scenario.sealedBid) = false /\
  map Mirror.b_commitment_hash (Mirror.bids db') = [Scenario.commitment7] /\
  map Mirror.b_revealed (Mirror.bids db') = [true] /\
  map Mirror.b_amount (Mirror.bids db') = [Some 5].
Proof. vm_compute. repeat split; reflexivity. Qed.

(** C1, amended. The reveal handler recomputes no hash: every bid whose
    [on_chain_id] is the event's [bidId] becomes revealed with the event's
    amount, whatever commitment it stores; every other bid is left as it
    was; no commitment hash and no other table changes. *)
Theorem handleBidRevealed_writes_unchecked
    (data : Webhook.BidRevealedData) (db : Mirror.Db) :
  let db' := Webhook.handleBidRevealed data db in
  Forall2
    (fun old new =>
       Mirror.b_commitment_hash new = Mirror.b_commitment_hash old /\
       Mirror.b_on_chain_id new = Mirror.b_on_chain_id old /\
       (if Mirror.is_id (Mirror.b_on_chain_id old) (Webhook.revealed_bidId data)
        then Mirror.b_revealed new = true /\
             Mirror.b_amount new = Some (Webhook.revealed_amount data)
        else new = old))
    (Mirror.bids db) (Mirror.bids db') /\
  Mirror.auctions db' = Mirror.auctions db /\
  Mirror.fulfillments db' = Mirror.fulfillments db /\
  Mirror.users db' = Mirror.users db.
Proof.
  cbn. repeat split.
  induction (Mirror.bids db) as [|b bs IH]; cbn; constructor; [|exact IH].
  destruct (Mirror.is_id (Mirror.b_on_chain_id b) (Webhook.revealed_bidId data));
    cbn; auto.
Qed.

(** ** Replaying events *)

Lemma with_bids_same (db : Mirror.Db) : Mirror.with_bids db (Mirror.bids db) = db.
Proof. destruct db; reflexivity. Qed.

Lemma with_auctions_same (db : Mirror.Db) : Mirror.with_auctions db (Mirror.auctions db) = db.
Proof. destruct db; reflexivity. Qed.

Lemma reveal_row_on_chain_id event b :
  Mirror.b_on_chain_id (Replay.reveal_row event b) = Mirror.b_on_chain_id b.
Proof.
  destruct event; cbn; try reflexivity.
  destruct (Mirror.is_id _ _); reflexivity.
Qed.

Lemma reveal_row_then_revealed amount event b :
  Mirror.set_b_revealed amount (Replay.reveal_row event b) = Mirror.set_b_revealed amount b.
Proof.
  destruct event; cbn; try reflexivity.
  destruct (Mirror.is_id _ _); reflexivity.
Qed.

(** A batch of reveals leaves on a row the amount of the last reveal that
    names it. *)
Lemma reveal_rows_last events : forall b,
  Replay.reveal_rows events b
  = match Replay.last_reveal events (Mirror.b_on_chain_id b) with
    | Some amount => Mirror.set_b_revealed amount b
    | None => b
    end.
Proof.
  induction events as [|event events IH]; intros b; [reflexivity|].
  change (Replay.reveal_rows (event :: events) b)
    with (Replay.reveal_rows events (Replay.reveal_row event b)).
  rewrite IH, reveal_row_on_chain_id. cbn [Replay.last_reveal].
  destruct (Replay.last_reveal events (Mirror.b_on_chain_id b)) as [amount|].
  - apply reveal_row_then_revealed.
  - destruct event; cbn; try reflexivity.
    destruct (Mirror.is_id _ _); reflexivity.
Qed.

Lemma reveal_rows_idempotent events b :
  Replay.reveal_rows events (Replay.reveal_rows events b) = Replay.reveal_rows events b.
Proof.
  rewrite (reveal_rows_last events (Replay.reveal_rows events b)).
  rewrite (reveal_rows_last events b).
  destruct (Replay.last_reveal events (Mirror.b_on_chain_id b)) as [amount|] eqn:Hlast.
  - cbn [Mirror.set_b_revealed Mirror.b_on_chain_id]. rewrite Hlast. reflexivity.
  - rewrite Hlast. reflexivity.
Qed.

Lemma process_reveals unique events : forall db,
  forallb Replay.reveals_only events = true ->
  Webhook.process unique events db
  = Mirror.with_bids db (map (Replay.reveal_rows events) (Mirror.bids db)).
Proof.
  induction events as [|event events IH]; intros db Hall.
  - cbn. rewrite List.map_id. symmetry. apply with_bids_same.
  - cbn in Hall. apply andb_true_iff in Hall as [Hev Hall].
    change (Webhook.process unique (event :: events) db)
      with (Webhook.process unique events (Webhook.dispatch unique event db)).
    rewrite (IH _ Hall).
    assert (Hstep : Webhook.dispatch unique event db
                    = Mirror.with_bids db (map (Replay.reveal_row event) (Mirror.bids db))).
    { destruct event; try discriminate Hev; cbn;
        try (rewrite List.map_id; symmetry; apply with_bids_same).
      reflexivity. }
    rewrite Hstep. cbn. rewrite List.map_map. reflexivity.
Qed.

Lemma update_where_idempotent {A : Type} (matches : A -> bool) (f : A -> A) rows :
  (forall row, matches row = true -> matches (f row) = true /\ f (f row) = f row) ->
  Mirror.update_where matches f (Mirror.update_where matches f rows)
  = Mirror.update_where matches f rows.
Proof.
  intros Hf. unfold Mirror.update_where. rewrite List.map_map.
  apply List.map_ext. intros row.
  destruct (matches row) eqn:Hm.
  - destruct (Hf row Hm) as [-> ->]. reflexivity.
  - rewrite Hm. reflexivity.
Qed.

(** C2, refuted as stated. One bid-submitted event, delivered twice, counts
    the bid twice; one settlement event, delivered twice to a store without a
    uniqueness constraint, leaves two Fulfillment rows. The bid count does
    not depend on the constraint. *)
Lemma replay_counts_bid_twice :
  let batch := [Webhook.BID_SUBMITTED Scenario.submitted1] in
  let db := Scenario.mirror Mirror.active 0 [Scenario.sealedBid] in
  map Mirror.a_bid_count (Mirror.auctions (Webhook.process true batch db)) = [1] /\
  map Mirror.a_bid_count
      (Mirror.auctions (Webhook.process true batch (Webhook.process true batch db)))
  = [2] /\
  map Mirror.a_bid_count
      (Mirror.auctions (Webhook.process false batch (Webhook.process false batch db)))
  = [2] /\
  let settle := [Webhook.AUCTION_SETTLED Scenario.settledA] in
  length (Mirror.fulfillments (Webhook.process false settle db)) = 1%nat /\
  length (Mirror.fulfillments
            (Webhook.process false settle (Webhook.process false settle db))) = 2%nat.
Proof.
  cbv zeta. repeat split; vm_compute; reflexivity.
Qed.

(** C2, amended. Replaying is idempotent in part only.
    - A batch made of bid-revealed events (and of events without a handler),
      processed twice, leaves the mirror as processing it once does.
    - A bid-submitted event delivered twice leaves the bid rows as one
      delivery does, but [bid_count] of the auction is incremented at each
      delivery: by two in all.
    - A settlement event delivered twice leaves auctions and bids as one
      delivery does; where the first delivery inserted a Fulfillment row, the
      second inserts it again, unless the store refuses a second row for the
      same auction. *)
Theorem replay_idempotent_in_part :
  (forall unique events db,
     forallb Replay.reveals_only events = true ->
     Webhook.process unique events (Webhook.process unique events db)
     = Webhook.process unique events db) /\
  (forall data db,
     let once := Webhook.handleBidSubmitted data db in
     let twice := Webhook.handleBidSubmitted data once in
     Mirror.bids twice = Mirror.bids once /\
     Mirror.fulfillments twice = Mirror.fulfillments db /\
     Forall2
       (fun old new =>
          if Mirror.is_id (Mirror.a_on_chain_id old) (Webhook.submitted_auctionId data)
          then Mirror.a_bid_count new = Mirror.a_bid_count old + 2 /\
               Mirror.a_status new = Mirror.a_status old
          else new = old)
       (Mirror.auctions db) (Mirror.auctions twice)) /\
  (forall unique data db,
     let once := Webhook.handleAuctionSettled unique data db in
     let twice := Webhook.handleAuctionSettled unique data once in
     Mirror.auctions twice = Mirror.auctions once /\
     Mirror.bids twice = Mirror.bids db /\
     exists inserted,
       Mirror.fulfillments once = Mirror.fulfillments db ++ inserted /\
       Mirror.fulfillments twice
       = Mirror.fulfillments once ++ (if unique then [] else inserted)).
Proof.
  split; [|split].
  - intros unique events db Hall.
    rewrite (process_reveals unique events db Hall).
    rewrite (process_reveals unique events _ Hall).
    cbn. rewrite List.map_map. f_equal.
    apply List.map_ext. intros b. apply reveal_rows_idempotent.
  - intros data db. cbn. repeat split.
    + apply update_where_idempotent. intros b Hb. split; [exact Hb | reflexivity].
    + induction (Mirror.auctions db) as [|a rows IH]; cbn; constructor; [|exact IH].
      destruct (Mirror.is_id (Mirror.a_on_chain_id a) (Webhook.submitted_auctionId data))
        eqn:Hm; cbn; rewrite ?Hm; cbn; [split; [lia | reflexivity] | reflexivity].
  - intros unique data db.
    pose proof (update_where_idempotent
                  (fun a => Mirror.is_id (Mirror.a_on_chain_id a) (Webhook.settled_auctionId data))
                  (Mirror.set_a_status Mirror.settled) (Mirror.auctions db)) as Hrows.
    specialize (Hrows (fun a Ha => conj Ha eq_refl)).
    unfold Webhook.handleAuctionSettled.
    cbn [Mirror.with_auctions Mirror.auctions Mirror.users Mirror.fulfillments Mirror.bids].
    destruct (Mirror.single
                (filter (fun a => Mirror.is_id (Mirror.a_on_chain_id a)
                                               (Webhook.settled_auctionId data) = true)
                        (Mirror.update_where
                           (fun a => Mirror.is_id (Mirror.a_on_chain_id a)
                                                  (Webhook.settled_auctionId data))
                           (Mirror.set_a_status Mirror.settled) (Mirror.auctions db))))
      as [a|] eqn:Ha;
    destruct (Mirror.single
                (filter (fun u => existsb (String.eqb (Webhook.winner data))
                                          (Mirror.u_wallet_addresses u) = true)
                        (Mirror.users db)))
      as [u|] eqn:Hu;
    cbn [Mirror.with_fulfillments Mirror.with_auctions Mirror.auctions Mirror.users
         Mirror.fulfillments Mirror.bids];
    rewrite Hrows, ?Ha, ?Hu;
    cbn [Mirror.with_fulfillments Mirror.with_auctions Mirror.auctions Mirror.users
         Mirror.fulfillments Mirror.bids];
    (split; [reflexivity | split; [reflexivity |]]);
    try (exists []; destruct unique; rewrite !List.app_nil_r; split; reflexivity).
    set (row := {| Mirror.f_auction_id := Webhook.settled_auctionId data;
                   Mirror.f_buyer_id := Mirror.u_id u;
                   Mirror.f_seller_id := Mirror.a_seller_id a;
                   Mirror.f_status := Mirror.fulfillment_pending |}).
    unfold Webhook.insert_fulfillment.
    destruct unique; cbn [andb].
    + destruct (existsb (fun f => String.eqb (Mirror.f_auction_id f) (Mirror.f_auction_id row))
                        (Mirror.fulfillments db)) eqn:Hex.
      * exists []. rewrite !List.app_nil_r. rewrite Hex. split; reflexivity.
      * exists [row]. split; [reflexivity|].
        rewrite List.existsb_app. cbn [existsb]. rewrite String.eqb_refl.
        rewrite orb_true_r. cbn. rewrite List.app_nil_r. reflexivity.
    + exists [row]. split; reflexivity.
Qed.

Lemma replay_idempotent_in_part_witness :
  let events := [Webhook.BID_REVEALED Scenario.reveal5; Webhook.DISPUTE_RAISED] in
  let db := Scenario.mirror Mirror.revealing 1 [Scenario.sealedBid] in
  forallb Replay.reveals_only events = true /\
  Webhook.process false events (Webhook.process false events db)
  = Webhook.process false events db.
Proof.
  cbv zeta. split; [reflexivity|].
  apply (proj1 replay_idempotent_in_part false
           [Webhook.BID_REVEALED Scenario.reveal5; Webhook.DISPUTE_RAISED]
           (Scenario.mirror Mirror.revealing 1 [Scenario.sealedBid])).
  reflexivity.
Defined.

(** ** Status writes *)




Lemma by_on_chain_id_update auctionId (f : Mirror.AuctionRow -> Mirror.AuctionRow) rows :
  (forall a, Mirror.a_on_chain_id (f a) = Mirror.a_on_chain_id a) ->
  AuctionRoute.by_on_chain_id auctionId
    (Mirror.update_where (fun a => Mirror.is_id (Mirror.a_on_chain_id a) auctionId) f rows)
  = map f (AuctionRoute.by_on_chain_id auctionId rows).
Proof.
  intros Hf. unfold AuctionRoute.by_on_chain_id.
  induction rows as [|a rows IH]; [reflexivity|].
  cbn [Mirror.update_where map].
  fold (Mirror.update_where (fun a => Mirror.is_id (Mirror.a_on_chain_id a) auctionId) f rows).
  destruct (Mirror.is_id (Mirror.a_on_chain_id a) auctionId) eqn:Hm.
  - rewrite filter_cons_True by (rewrite Hf; exact Hm).
    rewrite filter_cons_True by exact Hm.
    cbn [map]. rewrite IH. reflexivity.
  - rewrite !filter_cons_False by (rewrite Hm; discriminate). exact IH.
Qed.

Lemma single_map {A B : Type} (f : A -> B) rows :
  Mirror.single (map f rows) = f <$> Mirror.single rows.
Proof. destruct rows as [|a [|b rows]]; reflexivity. Qed.




(** ** The connection pool *)

Lemma failed_probe_on_primary_switches getSlot pool :
  ConnectionPool.currentConnection pool = ConnectionPool.primaryConnection ->
  getSlot ConnectionPool.primaryConnection = false ->
  ConnectionPool.healthCheckTick getSlot pool
  = {| ConnectionPool.currentConnection := ConnectionPool.fallbackConnection;
       ConnectionPool.consecutiveFailures := 0 |}.
Proof.
  intros Hcur Hdown. unfold ConnectionPool.healthCheckTick, ConnectionPool.checkHealth.
  rewrite Hcur, Hdown. reflexivity.
Qed.

Lemma healthy_probes_switch_back getSlot pool :
  ConnectionPool.currentConnection pool = ConnectionPool.fallbackConnection ->
  getSlot ConnectionPool.fallbackConnection = true ->
  getSlot ConnectionPool.primaryConnection = true ->
  ConnectionPool.currentConnection (ConnectionPool.healthCheckTick getSlot pool)
  = ConnectionPool.primaryConnection.
Proof.
  intros Hcur Hfb Hpr.
  unfold ConnectionPool.healthCheckTick, ConnectionPool.checkHealth, ConnectionPool.tryPrimary.
  rewrite Hcur, Hfb. cbn. rewrite Hpr. reflexivity.
Qed.

(** C5, the code at the failing input. A single failed health check while
    the primary is active switches the pool to the fallback at once: the
    counter has reached one, below [maxFailures], and is reset; the counter
    is compared with nothing. A later firing at which both endpoints answer
    brings the primary back. *)
Theorem one_failed_probe_switches_to_fallback :
  let primary_down c :=
    match c with
    | ConnectionPool.primaryConnection => false
    | ConnectionPool.fallbackConnection => true
    end in
  let all_up (c : ConnectionPool.Connection) := true in
  let counted := snd (ConnectionPool.checkHealth primary_down ConnectionPool.constructor) in
  let pool := ConnectionPool.healthCheckTick primary_down ConnectionPool.constructor in
  ConnectionPool.consecutiveFailures counted = 1%nat /\
  (1 < ConnectionPool.maxFailures)%nat /\
  ConnectionPool.getConnection pool = ConnectionPool.fallbackConnection /\
  ConnectionPool.consecutiveFailures pool = 0%nat /\
  ConnectionPool.getConnection (ConnectionPool.healthCheckTick all_up pool)
  = ConnectionPool.primaryConnection.
Proof. cbv zeta. repeat split. unfold ConnectionPool.maxFailures. lia. Qed.

Section RetryFacts.

Context {T E : Type}.
Variable operation : nat -> ConnectionPool.Connection -> E + T.
Variable maxRetries : nat.

Abbreviation loop := (ConnectionPool.retryLoop operation).

(** What has been observed stays observed. *)
Lemma retryLoop_keeps_effects fuel : forall attempt pool lastError trace effect,
  In effect trace ->
  In effect (ConnectionPool.effects (loop fuel maxRetries attempt pool lastError trace)).
Proof.
  induction fuel as [|fuel IH]; intros attempt pool lastError trace effect Hin;
    [exact Hin|].
  cbn [ConnectionPool.retryLoop].
  destruct (operation attempt (ConnectionPool.currentConnection pool)) as [error|value].
  - destruct ((attempt <? maxRetries - 1)%nat);
      destruct ((attempt =? 1)%nat
                && ConnectionPool.Connection_eqb (ConnectionPool.currentConnection pool)
                                                 ConnectionPool.primaryConnection);
      apply IH; rewrite ?List.in_app_iff; auto.
  - cbn. rewrite List.in_app_iff. auto.
Qed.





End RetryFacts.




(** ** The webhook signature *)

Lemma fold_compress_length blocks : forall h,
  length h = 8%nat -> length (fold_left Sha256.compress blocks h) = 8%nat.
Proof.
  induction blocks as [|block blocks IH]; intros h Hh; [exact Hh|].
  cbn [fold_left]. apply IH. reflexivity.
Qed.

Lemma flat_map_be_bytes_length ws :
  length (flat_map (Sha256.be_bytes 4) ws) = (4 * length ws)%nat.
Proof.
  induction ws as [|w ws IH]; [reflexivity|].
  cbn [flat_map]. rewrite List.length_app, IH. cbn [Sha256.be_bytes length]. lia.
Qed.

Lemma sha256_length msg : length (Sha256.sha256 msg) = 32%nat.
Proof.
  unfold Sha256.sha256. cbv zeta.
  rewrite flat_map_be_bytes_length, fold_compress_length; reflexivity.
Qed.

Lemma hex_of_bytes_length bs : String.length (hex_of_bytes bs) = (2 * length bs)%nat.
Proof. induction bs as [|b bs IH]; [reflexivity|]. cbn. rewrite IH. lia. Qed.

Lemma bytes_of_string_length s : length (bytes_of_string s) = String.length s.
Proof. induction s as [|c s IH]; [reflexivity|]. cbn. rewrite IH. reflexivity. Qed.

Lemma expected_signature_length secret payload :
  length (bytes_of_string (hex_of_bytes (Sha256.hmac secret payload))) = 64%nat.
Proof.
  rewrite bytes_of_string_length, hex_of_bytes_length.
  unfold Sha256.hmac. cbv zeta. rewrite sha256_length. reflexivity.
Qed.

Example signed_batch_is_processed :
  let body := "[BID_REVEALED bid-1 5]" in
  let signature := hex_of_bytes (Sha256.hmac (bytes_of_string "whsec") (bytes_of_string body)) in
  let request := {| Webhook.body := body; Webhook.x_helius_signature := Some signature |} in
  let db := Scenario.mirror Mirror.revealing 1 [Scenario.sealedBid] in
  let '(response, db') :=
    Webhook.POST "whsec" (fun _ => Ok [Webhook.BID_REVEALED Scenario.reveal5]) false
                 request db in
  Http.status response = 200 /\ map Mirror.b_amount (Mirror.bids db') = [Some 5].
Proof. vm_compute. split; reflexivity. Qed.

(** X11. A batch whose signature is not accepted is never handed to a
    handler: the mirror is unchanged and the answer is 401 or 500. *)
Lemma unverified_batch_is_not_processed secret parse unique request db :
  (forall signature, Webhook.x_helius_signature request = Some signature ->
     Webhook.verifySignature secret (Webhook.body request) signature <> Ok true) ->
  snd (Webhook.POST secret parse unique request db) = db /\
  (Http.status (fst (Webhook.POST secret parse unique request db)) = 401 \/
   Http.status (fst (Webhook.POST secret parse unique request db)) = 500).
Proof.
  intros Hbad. unfold Webhook.POST.
  destruct (Webhook.x_helius_signature request) as [signature|]; [|cbn; auto].
  specialize (Hbad signature eq_refl).
  destruct signature as [|c signature]; [cbn; auto|].
  destruct (Webhook.verifySignature secret (Webhook.body request) (String c signature))
    as [[|]|e]; cbn; auto.
  contradiction Hbad. reflexivity.
Qed.

(** A request without the header, or with an empty one, is answered 401. *)
Lemma missing_signature_is_a_401 secret parse unique request db :
  Webhook.x_helius_signature request = None \/ Webhook.x_helius_signature request = Some "" ->
  Webhook.POST secret parse unique request db
  = (Http.NextResponse_json (Http.JError "Missing signature") 401, db).
Proof. intros [H | H]; unfold Webhook.POST; rewrite H; reflexivity. Qed.

(** A signature of the right length that differs from the expected one is
    answered 401. *)
Lemma wrong_signature_is_a_401 secret parse unique request signature db :
  Webhook.x_helius_signature request = Some signature ->
  Webhook.verifySignature secret (Webhook.body request) signature = Ok false ->
  Webhook.POST secret parse unique request db
  = (Http.NextResponse_json (Http.JError "Invalid signature") 401, db).
Proof.
  intros Hsig Hbad. unfold Webhook.POST. rewrite Hsig.
  destruct signature as [|c signature].
  - unfold Webhook.verifySignature, Webhook.timingSafeEqual in Hbad.
    rewrite expected_signature_length in Hbad. discriminate Hbad.
  - rewrite Hbad. reflexivity.
Qed.

(** C7, the code at the failing input. A signature header that is present
    but is not 64 bytes long makes [timingSafeEqual] throw; the route answers
    500, not 401. No handler has run and the mirror is unchanged. *)
Theorem wrong_length_signature_is_a_500 secret parse unique request signature db :
  Webhook.x_helius_signature request = Some signature ->
  signature <> "" ->
  String.length signature <> 64%nat ->
  Webhook.POST secret parse unique request db
  = (Http.NextResponse_json (Http.JError "Internal server error") 500, db).
Proof.
  intros Hsig Hne Hlen. unfold Webhook.POST. rewrite Hsig.
  destruct signature as [|c signature]; [contradiction Hne; reflexivity|].
  unfold Webhook.verifySignature, Webhook.timingSafeEqual.
  rewrite expected_signature_length, bytes_of_string_length.
  replace (String.length (String c signature) =? 64)%nat with false
    by (symmetry; apply Nat.eqb_neq; exact Hlen).
  reflexivity.
Qed.

Lemma wrong_length_signature_witness :
  let request := {| Webhook.body := "[]"; Webhook.x_helius_signature := Some "abc" |} in
  let db := Scenario.mirror Mirror.active 0 [] in
  Webhook.POST "whsec" (fun _ => Ok []) false request db
  = (Http.NextResponse_json (Http.JError "Internal server error") 500, db).
Proof.
  cbv zeta.
  apply (wrong_length_signature_is_a_500 "whsec" (fun _ => Ok []) false
           {| Webhook.body := "[]"; Webhook.x_helius_signature := Some "abc" |} "abc").
  - reflexivity.
  - discriminate.
  - cbn. lia.
Defined.

(** ** Submitting a bid *)

Example accepted_bid_is_stored :
  let '(response, st) :=
    BidRoute.POST (Scenario.env_at (Verifier.Returns true) 0) (Some "privy-bidder")
                  "auction-A" (Ok Scenario.bidBody) Scenario.fresh in
  Http.status response = 200 /\
  map Mirror.b_commitment_hash (Mirror.bids (BidRoute.db st)) = [Scenario.commitment7].
Proof. vm_compute. split; reflexivity. Qed.

Lemma invalid_proof_is_rejected
    (env : BidRoute.Env) (session : option string) (auctionId : string)
    (body : BidRoute.BidBody) (st : BidRoute.State) :
  Verifier.verifyProof (BidRoute.verifyFinalProof env) (BidRoute.proof body)
                       (BidRoute.commitmentHash body) = false ->
  let r := BidRoute.POST env session auctionId (Ok body) st in
  Http.status (fst r) <> 200 /\
  (forall bidId transaction, Http.json (fst r) <> Http.JBid bidId transaction) /\
  BidRoute.db (snd r) = BidRoute.db st.
Proof.
  intros Hinvalid. cbv zeta. unfold BidRoute.POST. rewrite Hinvalid.
  destruct (negb (BidRoute.submitBidSchema body)); [cbn; repeat split; discriminate|].
  destruct session as [user_id|]; [|cbn; repeat split; discriminate].
  destruct (RateLimit.checkRateLimit _ None (BidRoute.now env) (BidRoute.redis st))
    as [[limit|e] redis']; [|cbn; repeat split; discriminate].
  cbn [BidRoute.with_redis BidRoute.db BidRoute.redis].
  repeat match goal with
         | |- context [match ?x with _ => _ end] =>
             destruct x; try (cbn; repeat split; discriminate)
         end.
Qed.

Lemma verifyProof_false_unless_true verifyFinalProof proof publicInputs :
  verifyFinalProof proof publicInputs <> Verifier.Returns true ->
  Verifier.verifyProof verifyFinalProof proof publicInputs = false.
Proof.
  intros Hverdict. unfold Verifier.verifyProof.
  destruct (verifyFinalProof proof publicInputs) as [[|]|];
    [contradiction Hverdict; reflexivity | reflexivity | reflexivity].
Qed.

(** C8. When the verifier does not return [true] for the submitted proof
    (it returns [false] or throws), the route does not answer 200, its
    answer carries no transaction, and the mirror is unchanged: no bid row is
    stored. *)
Theorem bid_submission_fails_closed
    (env : BidRoute.Env) (session : option string) (auctionId : string)
    (body : BidRoute.BidBody) (st : BidRoute.State) :
  BidRoute.verifyFinalProof env (BidRoute.proof body) (BidRoute.commitmentHash body)
  <> Verifier.Returns true ->
  let r := BidRoute.POST env session auctionId (Ok body) st in
  Http.status (fst r) <> 200 /\
  (forall bidId transaction, Http.json (fst r) <> Http.JBid bidId transaction) /\
  BidRoute.db (snd r) = BidRoute.db st.
Proof.
  intros Hverdict. apply invalid_proof_is_rejected.
  apply verifyProof_false_unless_true. exact Hverdict.
Qed.

Lemma bid_submission_fails_closed_witness :
  let env := Scenario.env_at Verifier.Throws 0 in
  let r := BidRoute.POST env (Some "privy-bidder") "auction-A" (Ok Scenario.bidBody)
                         Scenario.fresh in
  Http.status (fst r) <> 200 /\
  (forall bidId transaction, Http.json (fst r) <> Http.JBid bidId transaction) /\
  BidRoute.db (snd r) = BidRoute.db Scenario.fresh.
Proof.
  cbv zeta.
  apply (bid_submission_fails_closed (Scenario.env_at Verifier.Throws 0)
           (Some "privy-bidder") "auction-A" Scenario.bidBody Scenario.fresh).
  cbn. discriminate.
Defined.

(** A bid row appears only when the verifier returned [true]. *)
Corollary stored_bid_was_verified
    (env : BidRoute.Env) (session : option string) (auctionId : string)
    (body : BidRoute.BidBody) (st : BidRoute.State) :
  Mirror.bids (BidRoute.db (snd (BidRoute.POST env session auctionId (Ok body) st)))
  <> Mirror.bids (BidRoute.db st) ->
  BidRoute.verifyFinalProof env (BidRoute.proof body) (BidRoute.commitmentHash body)
  = Verifier.Returns true.
Proof.
  intros Hchanged.
  destruct (BidRoute.verifyFinalProof env (BidRoute.proof body) (BidRoute.commitmentHash body))
    as [[|]|] eqn:Hv; [reflexivity | |];
    exfalso; apply Hchanged;
    (destruct (invalid_proof_is_rejected env session auctionId body st) as (_ & _ & ->);
     [unfold Verifier.verifyProof; rewrite Hv; reflexivity | reflexivity]).
Qed.

(** ** Rate limiting of bid submissions *)

(** C4, the code at the failing input. One bidder submits eleven times
    within ten seconds to one auction (each proof is rejected, so no bid is
    stored in between). The route calls [checkRateLimit] without a limiter
    type, which selects the 100-a-minute [apiRequest] limiter: the eleventh
    submission passes the limiter and is answered 400 for its proof, not
    429. The [bidSubmission] limiter declared for this purpose would have
    refused the eleventh call. *)
Theorem eleventh_bid_is_not_rate_limited :
  map Http.status (fst (Scenario.submissions (Verifier.Returns false) Scenario.eleven
                                             Scenario.fresh))
  = repeat 400 11 /\
  last (map Http.json (fst (Scenario.submissions (Verifier.Returns false) Scenario.eleven
                                                 Scenario.fresh)))
  = Some (Http.JError "Invalid proof") /\
  Scenario.bidSubmission_checks Scenario.eleven ∅
  = repeat true 10 ++ [false].
Proof. vm_compute. repeat split; reflexivity. Qed.

(** ** Filling a zeroed buffer at a running offset *)


Lemma skipn_zeros n k : skipn n (repeat 0 k) = repeat 0 (k - n).
Proof.
  revert k. induction n as [|n IH]; intros k.
  - rewrite Nat.sub_0_r. reflexivity.
  - destruct k as [|k]; [reflexivity|]. cbn. apply IH.
Qed.

Lemma copy_at_end w src k n :
  n = length w ->
  Buffer.copy src (w ++ repeat 0 k) n
  = (w ++ firstn k src) ++ repeat 0 (k - length src).
Proof.
  intros ->. unfold Buffer.copy.
  rewrite List.length_app, List.repeat_length.
  destruct (length w + k <=? length w)%nat eqn:Hk.
  - apply Nat.leb_le in Hk. assert (k = 0%nat) as -> by lia.
    cbn. rewrite !List.app_nil_r. reflexivity.
  - apply Nat.leb_gt in Hk.
    replace (length w + k - length w)%nat with k by lia.
    rewrite List.firstn_app, List.firstn_all, Nat.sub_diag. cbn [firstn].
    rewrite List.app_nil_r, <- List.app_assoc. f_equal.
    rewrite List.skipn_app, List.skipn_all2 by lia. cbn [app].
    replace (length w + Nat.min (length src) k - length w)%nat
      with (Nat.min (length src) k) by lia.
    rewrite skipn_zeros.
    replace (k - Nat.min (length src) k)%nat with (k - length src)%nat by lia.
    f_equal.
    destruct (Nat.le_ge_cases (length src) k) as [Hle | Hge].
    + rewrite Nat.min_l by exact Hle. rewrite !List.firstn_all2 by lia. reflexivity.
    + rewrite Nat.min_r by exact Hge. reflexivity.
Qed.

Lemma set_at_end w k n v :
  n = length w ->
  Buffer.set (w ++ repeat 0 (S k)) n v = (w ++ [v mod 256]) ++ repeat 0 k.
Proof.
  intros ->. unfold Buffer.set.
  rewrite List.length_app, List.repeat_length.
  replace (length w <? length w + S k)%nat with true by (symmetry; apply Nat.ltb_lt; lia).
  rewrite List.firstn_app, List.firstn_all, Nat.sub_diag. cbn [firstn].
  rewrite List.app_nil_r, <- List.app_assoc. f_equal. cbn [app]. f_equal.
  rewrite List.skipn_app, List.skipn_all2 by lia.
  replace (S (length w) - length w)%nat with 1%nat by lia. reflexivity.
Qed.

Lemma subarray_at_end w k n : n = length w -> Buffer.subarray (w ++ repeat 0 k) n = w.
Proof.
  intros ->. unfold Buffer.subarray.
  rewrite List.firstn_app, List.firstn_all, Nat.sub_diag. cbn. apply List.app_nil_r.
Qed.

Lemma subarray_past_end buf n : (length buf <= n)%nat -> Buffer.subarray buf n = buf.
Proof. intros Hn. apply List.firstn_all2. exact Hn. Qed.

Lemma le_bytes_length n v : length (Prover.le_bytes n v) = n.
Proof. revert v. induction n as [|n IH]; intros v; cbn; [reflexivity | rewrite IH; reflexivity]. Qed.

Lemma writeUInt8_at_end w k n v :
  n = length w -> 0 <= v <= 255 ->
  BufferWriters.writeUInt8 (w ++ repeat 0 (S k)) v n = Ok ((w ++ [v]) ++ repeat 0 k).
Proof.
  intros Hn Hv. unfold BufferWriters.writeUInt8, Buffer.checkInt.
  replace (v <? 0) with false by (symmetry; apply Z.ltb_ge; lia).
  replace (255 <? v) with false by (symmetry; apply Z.ltb_ge; lia).
  rewrite List.length_app, List.repeat_length.
  replace (length w + S k <? n + 1)%nat with false by (symmetry; apply Nat.ltb_ge; lia).
  cbn [orb bind]. rewrite set_at_end by exact Hn.
  rewrite Z.mod_small by lia. reflexivity.
Qed.

Lemma writeUInt32LE_at_end w k n v :
  n = length w -> 0 <= v < 4294967296 ->
  Buffer.writeUInt32LE (w ++ repeat 0 (4 + k)) v n
  = Ok ((w ++ Prover.le_bytes 4 v) ++ repeat 0 k).
Proof.
  intros Hn Hv. unfold Buffer.writeUInt32LE, Buffer.checkInt.
  replace (v <? 0) with false by (symmetry; apply Z.ltb_ge; lia).
  replace (4294967295 <? v) with false by (symmetry; apply Z.ltb_ge; lia).
  rewrite List.length_app, List.repeat_length.
  replace (length w + (4 + k) <? n + 4)%nat with false by (symmetry; apply Nat.ltb_ge; lia).
  cbn [orb bind plus].
  rewrite set_at_end by exact Hn.
  rewrite set_at_end by (rewrite List.length_app; cbn; lia).
  rewrite set_at_end by (rewrite !List.length_app; cbn; lia).
  rewrite set_at_end by (rewrite !List.length_app; cbn; lia).
  rewrite <- !List.app_assoc. cbn [app Prover.le_bytes].
  rewrite !Z.shiftr_shiftr by lia. rewrite !Z.shiftr_div_pow2 by lia.
  change (2 ^ 8) with 256. change (2 ^ (8 + 8)) with 65536.
  change (2 ^ (8 + 8 + 8)) with 16777216.
  apply f_equal. apply (f_equal (app w)).
  repeat (apply (f_equal2 cons); [Z.div_mod_to_equations; lia|]).
  reflexivity.
Qed.

Lemma writeUInt32LE_no_room w k n v :
  n = length w -> (k < 4)%nat -> 0 <= v < 4294967296 ->
  Buffer.writeUInt32LE (w ++ repeat 0 k) v n = Throw (RangeError "offset").
Proof.
  intros Hn Hk Hv. unfold Buffer.writeUInt32LE, Buffer.checkInt.
  replace (v <? 0) with false by (symmetry; apply Z.ltb_ge; lia).
  replace (4294967295 <? v) with false by (symmetry; apply Z.ltb_ge; lia).
  rewrite List.length_app, List.repeat_length.
  replace (length w + k <? n + 4)%nat with true by (symmetry; apply Nat.ltb_lt; lia).
  reflexivity.
Qed.

Lemma low_byte_of_half (v : Z) : 0 <= v -> Z.land v 4294967295 mod 256 = v mod 256.
Proof.
  intros Hv. change 4294967295 with (Z.ones 32).
  rewrite Z.land_ones by lia. change (2 ^ 32) with 4294967296.
  Z.div_mod_to_equations; lia.
Qed.

Lemma eight_bytes_at_end w k n v :
  n = length w -> 0 <= v < 2 ^ 64 ->
  (let lo := Z.land v 4294967295 in
   let buf := Buffer.set (w ++ repeat 0 (8 + k)) n lo in
   let lo := Z.shiftr lo 8 in
   let buf := Buffer.set buf (n + 1) lo in
   let lo := Z.shiftr lo 8 in
   let buf := Buffer.set buf (n + 2) lo in
   let lo := Z.shiftr lo 8 in
   let buf := Buffer.set buf (n + 3) lo in
   let hi := Z.land (Z.shiftr v 32) 4294967295 in
   let buf := Buffer.set buf (n + 4) hi in
   let hi := Z.shiftr hi 8 in
   let buf := Buffer.set buf (n + 5) hi in
   let hi := Z.shiftr hi 8 in
   let buf := Buffer.set buf (n + 6) hi in
   let hi := Z.shiftr hi 8 in
   Buffer.set buf (n + 7) hi)
  = (w ++ Prover.le_bytes 8 v) ++ repeat 0 k.
Proof.
  intros Hn Hv. cbv zeta. cbn [plus].
  rewrite set_at_end by exact Hn.
  do 7 (rewrite set_at_end by (rewrite !List.length_app; cbn; lia)).
  rewrite <- !List.app_assoc. cbn [app Prover.le_bytes].
  rewrite !Z.shiftr_shiftr by lia.
  change (8 + 8) with 16. change (16 + 8) with 24.
  assert (Hh : 0 <= Z.shiftr v 32) by (apply Z.shiftr_nonneg; lia).
  rewrite (low_byte_of_half v) by lia.
  rewrite (low_byte_of_half (Z.shiftr v 32)) by lia.
  rewrite !byte_of_halves by (try lia; auto).
  rewrite (Z.shiftr_div_pow2 v 32) by lia.
  change (2 ^ 32) with 4294967296. change (2 ^ 8) with 256.
  change (2 ^ 16) with 65536. change (2 ^ 24) with 16777216.
  change (2 ^ 64) with 18446744073709551616 in Hv.
  apply (f_equal (app w)).
  repeat (apply (f_equal2 cons); [Z.div_mod_to_equations; lia|]).
  reflexivity.
Qed.

Lemma writeBigUInt64LE_at_end w k n v :
  n = length w -> 0 <= v < 2 ^ 64 ->
  Buffer.writeBigUInt64LE (w ++ repeat 0 (8 + k)) v n
  = Ok ((w ++ Prover.le_bytes 8 v) ++ repeat 0 k).
Proof.
  intros Hn Hv. unfold Buffer.writeBigUInt64LE, Buffer.checkInt.
  replace (v <? 0) with false by (symmetry; apply Z.ltb_ge; lia).
  replace (18446744073709551615 <? v) with false
    by (symmetry; apply Z.ltb_ge; change (2 ^ 64) with 18446744073709551616 in Hv; lia).
  rewrite List.length_app, List.repeat_length.
  replace (length w + (8 + k) <? n + 8)%nat with false by (symmetry; apply Nat.ltb_ge; lia).
  cbn [orb bind]. f_equal. apply (eight_bytes_at_end w k n v Hn Hv).
Qed.

Lemma writeBigInt64LE_at_end w k n v :
  n = length w -> 0 <= v < 2 ^ 63 ->
  BufferWriters.writeBigInt64LE (w ++ repeat 0 (8 + k)) v n
  = Ok ((w ++ Prover.le_bytes 8 v) ++ repeat 0 k).
Proof.
  intros Hn Hv. unfold BufferWriters.writeBigInt64LE, Buffer.checkInt.
  change (2 ^ 63) with 9223372036854775808 in Hv.
  replace (v <? -9223372036854775808) with false by (symmetry; apply Z.ltb_ge; lia).
  replace (9223372036854775807 <? v) with false by (symmetry; apply Z.ltb_ge; lia).
  rewrite List.length_app, List.repeat_length.
  replace (length w + (8 + k) <? n + 8)%nat with false by (symmetry; apply Nat.ltb_ge; lia).
  cbn [orb bind]. f_equal. apply (eight_bytes_at_end w k n v Hn).
  change (2 ^ 64) with 18446744073709551616. lia.
Qed.

Ltac buffer_length :=
  rewrite ?List.length_app, ?le_bytes_length, ?List.length_firstn, ?bytes_of_string_length;
  cbn [length]; lia.

(** ** The instruction data of the transaction builders *)

(** X1. With hashes of 32 bytes, the submit-bid instruction data is the
    discriminator 1, the commitment hash, the proof hash, the length of the
    proof on four little-endian bytes and the proof; but only the first 187
    bytes of the proof are carried, while the length written is that of the
    whole proof. *)
Theorem submitBidData_bytes (p : Transactions.SubmitBidParams) :
  length (Transactions.commitmentHash p) = 32%nat ->
  length (Transactions.proofHash p) = 32%nat ->
  Z.of_nat (length (Transactions.proof p)) < 4294967296 ->
  Transactions.submitBidData p
  = Ok ([1] ++ Transactions.commitmentHash p ++ Transactions.proofHash p
            ++ Prover.le_bytes 4 (Z.of_nat (length (Transactions.proof p)))
            ++ firstn 187 (Transactions.proof p)).
Proof.
  intros Hch Hph Hlen. unfold Transactions.submitBidData, Buffer.alloc.
  cbn [Nat.add].
  change (Buffer.copy Transactions.SUBMIT_BID (repeat 0 256) 0)
    with ([1] ++ repeat 0 255).
  rewrite (copy_at_end [1] (Transactions.commitmentHash p) 255 1 eq_refl).
  rewrite (List.firstn_all2 (n := 255)) by lia. rewrite Hch.
  change (255 - 32)%nat with 223%nat.
  rewrite (copy_at_end _ (Transactions.proofHash p) 223 33) by buffer_length.
  rewrite (List.firstn_all2 (n := 223)) by lia. rewrite Hph.
  change (223 - 32)%nat with (4 + 187)%nat.
  rewrite writeUInt32LE_at_end by (try buffer_length; lia).
  cbn [bind].
  rewrite (copy_at_end _ (Transactions.proof p) 187 69) by buffer_length.
  rewrite <- !List.app_assoc. f_equal.
  rewrite !List.app_assoc.
  destruct (Nat.le_ge_cases (length (Transactions.proof p)) 187) as [Hle | Hge].
  - apply subarray_at_end. rewrite List.firstn_all2 by lia. buffer_length.
  - replace (187 - length (Transactions.proof p))%nat with 0%nat by lia.
    cbn [repeat]. rewrite List.app_nil_r.
    apply subarray_past_end. buffer_length.
Qed.

Lemma submitBidData_bytes_witness :
  let p := {| Transactions.auctionId := Transactions.Base58 "auction-A";
              Transactions.bidder := Transactions.Base58 Scenario.bidderKey;
              Transactions.commitmentHash := repeat 17 32;
              Transactions.proof := repeat 9 300;
              Transactions.proofHash := repeat 34 32;
              Transactions.paymentMint := Transactions.Base58 BidRoute.SOL_MINT;
              Transactions.collateralAmount := 1 |} in
  Transactions.submitBidData p
  = Ok ([1] ++ repeat 17 32 ++ repeat 34 32 ++ Prover.le_bytes 4 300
            ++ firstn 187 (repeat 9 300)).
Proof.
  cbv zeta.
  apply (submitBidData_bytes
           {| Transactions.auctionId := Transactions.Base58 "auction-A";
              Transactions.bidder := Transactions.Base58 Scenario.bidderKey;
              Transactions.commitmentHash := repeat 17 32;
              Transactions.proof := repeat 9 300;
              Transactions.proofHash := repeat 34 32;
              Transactions.paymentMint := Transactions.Base58 BidRoute.SOL_MINT;
              Transactions.collateralAmount := 1 |});
    [reflexivity | reflexivity | cbn; lia].
Defined.





Lemma le_value_le_bytes n : forall v,
  0 <= v -> BufferWriters.le_value (Prover.le_bytes n v) = v mod 2 ^ (8 * Z.of_nat n).
Proof.
  induction n as [|n IH]; intros v Hv.
  - cbn. rewrite Z.mod_1_r. reflexivity.
  - cbn [Prover.le_bytes BufferWriters.le_value fold_right].
    fold (BufferWriters.le_value (Prover.le_bytes n (v / 256))).
    rewrite IH by (apply Z.div_pos; lia).
    replace (8 * Z.of_nat (S n)) with (8 + 8 * Z.of_nat n) by lia.
    rewrite Z.pow_add_r by lia. change (2 ^ 8) with 256.
    rewrite Z.rem_mul_r by lia. reflexivity.
Qed.

(** X3. For an amount that fits 64 unsigned bits and a salt of 32 bytes, the
    reveal-bid instruction data is the discriminator 2, the amount on eight
    little-endian bytes, the salt, the length of the proof on four
    little-endian bytes and the first 211 bytes of the proof; the amount is
    read back from bytes 1 to 8 of the data. *)
Theorem revealBidData_bytes (p : RevealBid.RevealBidParams) :
  0 <= RevealBid.amount p < 2 ^ 64 ->
  length (RevealBid.salt p) = 32%nat ->
  Z.of_nat (length (RevealBid.proof p)) < 4294967296 ->
  exists data,
    RevealBid.revealBidData p = Ok data /\
    data = [2] ++ Prover.le_bytes 8 (RevealBid.amount p) ++ RevealBid.salt p
               ++ Prover.le_bytes 4 (Z.of_nat (length (RevealBid.proof p)))
               ++ firstn 211 (RevealBid.proof p) /\
    BufferWriters.le_value (firstn 8 (skipn 1 data)) = RevealBid.amount p.
Proof.
  intros Hamount Hsalt Hlen.
  exists ([2] ++ Prover.le_bytes 8 (RevealBid.amount p) ++ RevealBid.salt p
              ++ Prover.le_bytes 4 (Z.of_nat (length (RevealBid.proof p)))
              ++ firstn 211 (RevealBid.proof p)).
  split; [|split; [reflexivity|]].
  - unfold RevealBid.revealBidData, Buffer.alloc. cbn [Nat.add].
    change (Buffer.copy Transactions.REVEAL_BID (repeat 0 256) 0)
      with ([2] ++ repeat 0 (8 + 247)).
    rewrite writeBigUInt64LE_at_end by (try reflexivity; lia).
    cbn [bind].
    rewrite (copy_at_end _ (RevealBid.salt p) 247 9) by buffer_length.
    rewrite (List.firstn_all2 (n := 247)) by lia. rewrite Hsalt.
    change (247 - 32)%nat with (4 + 211)%nat.
    rewrite writeUInt32LE_at_end by (try buffer_length; lia).
    cbn [bind].
    rewrite (copy_at_end _ (RevealBid.proof p) 211 45) by buffer_length.
    rewrite <- !List.app_assoc. f_equal.
    rewrite !List.app_assoc.
    destruct (Nat.le_ge_cases (length (RevealBid.proof p)) 211) as [Hle | Hge].
    + apply subarray_at_end. rewrite List.firstn_all2 by lia. buffer_length.
    + replace (211 - length (RevealBid.proof p))%nat with 0%nat by lia.
      cbn [repeat]. rewrite List.app_nil_r.
      apply subarray_past_end. buffer_length.
  - cbn [app skipn]. rewrite List.skipn_O.
    rewrite List.firstn_app, le_bytes_length, Nat.sub_diag.
    rewrite List.firstn_all2 by (rewrite le_bytes_length; lia).
    cbn [firstn]. rewrite List.app_nil_r.
    rewrite le_value_le_bytes by lia.
    change (8 * Z.of_nat 8) with 64. apply Z.mod_small. exact Hamount.
Qed.

Lemma revealBidData_bytes_witness :
  let p := {| RevealBid.auctionId := Transactions.Base58 "auction-A";
              RevealBid.bidder := Transactions.Base58 Scenario.bidderKey;
              RevealBid.amount := 1500000000;
              RevealBid.salt := Scenario.salt;
              RevealBid.proof := [4; 5; 6] |} in
  exists data,
    RevealBid.revealBidData p = Ok data /\
    data = [2] ++ Prover.le_bytes 8 1500000000 ++ Scenario.salt
               ++ Prover.le_bytes 4 3 ++ firstn 211 [4; 5; 6] /\
    BufferWriters.le_value (firstn 8 (skipn 1 data)) = 1500000000.
Proof.
  cbv zeta.
  apply (revealBidData_bytes
           {| RevealBid.auctionId := Transactions.Base58 "auction-A";
              RevealBid.bidder := Transactions.Base58 Scenario.bidderKey;
              RevealBid.amount := 1500000000;
              RevealBid.salt := Scenario.salt;
              RevealBid.proof := [4; 5; 6] |});
    [cbn; lia | reflexivity | cbn; lia].
Defined.

(** X4. An amount that does not fit 64 unsigned bits is not cut to fit: the
    reveal-bid builder throws a range error, also when the blockhash was
    fetched; when fetching the blockhash failed, that error comes first. *)
Theorem buildRevealBidTransaction_rejects_overflow
    (blockhash : Result string) (p : RevealBid.RevealBidParams) :
  RevealBid.amount p < 0 \/ 2 ^ 64 <= RevealBid.amount p ->
  RevealBid.buildRevealBidTransaction blockhash p
  = match blockhash with
    | Ok _ => Throw (RangeError "value")
    | Throw e => Throw e
    end.
Proof.
  intros Hout. destruct blockhash as [h|e]; [|reflexivity].
  unfold RevealBid.buildRevealBidTransaction, RevealBid.revealBidData,
    Buffer.writeBigUInt64LE, Buffer.checkInt.
  cbn [bind].
  change (2 ^ 64) with 18446744073709551616 in Hout.
  replace ((RevealBid.amount p <? 0) || (18446744073709551615 <? RevealBid.amount p))
    with true; [reflexivity|].
  symmetry. apply orb_true_iff.
  destruct Hout as [Hneg | Hbig]; [left; apply Z.ltb_lt | right; apply Z.ltb_lt]; lia.
Qed.

Lemma buildRevealBidTransaction_rejects_overflow_witness :
  RevealBid.buildRevealBidTransaction (Ok "blockhash")
    {| RevealBid.auctionId := Transactions.Base58 "auction-A";
       RevealBid.bidder := Transactions.Base58 Scenario.bidderKey;
       RevealBid.amount := 18446744073709551616;
       RevealBid.salt := Scenario.salt;
       RevealBid.proof := [] |}
  = Throw (RangeError "value").
Proof.
  apply (buildRevealBidTransaction_rejects_overflow (Ok "blockhash")
           {| RevealBid.auctionId := Transactions.Base58 "auction-A";
              RevealBid.bidder := Transactions.Base58 Scenario.bidderKey;
              RevealBid.amount := 18446744073709551616;
              RevealBid.salt := Scenario.salt;
              RevealBid.proof := [] |}).
  right. cbn. lia.
Defined.

(** X5. When the type and category fit a byte, the reserve hash has 32
    bytes, the durations are non-negative and fit 63 bits, and the content
    pointer and title fit the 1024-byte buffer, the create-auction
    instruction data is: the discriminator 0, the type, the category, the
    reserve hash, the two durations on eight little-endian bytes each, then
    the content pointer and the title, each behind its length on four
    little-endian bytes. *)
Theorem createAuctionData_bytes (p : CreateAuction.CreateAuctionParams) :
  0 <= CreateAuction.productType p <= 255 ->
  0 <= CreateAuction.category p <= 255 ->
  length (CreateAuction.reservePriceHash p) = 32%nat ->
  0 <= CreateAuction.duration p < 2 ^ 63 ->
  0 <= CreateAuction.revealDuration p < 2 ^ 63 ->
  (59 + String.length (CreateAuction.ipfsHash p)
      + String.length (CreateAuction.title p) <= 1024)%nat ->
  CreateAuction.createAuctionData p
  = Ok ([0; CreateAuction.productType p; CreateAuction.category p]
          ++ CreateAuction.reservePriceHash p
          ++ Prover.le_bytes 8 (CreateAuction.duration p)
          ++ Prover.le_bytes 8 (CreateAuction.revealDuration p)
          ++ Prover.le_bytes 4 (Z.of_nat (String.length (CreateAuction.ipfsHash p)))
          ++ bytes_of_string (CreateAuction.ipfsHash p)
          ++ Prover.le_bytes 4 (Z.of_nat (String.length (CreateAuction.title p)))
          ++ bytes_of_string (CreateAuction.title p)).
Proof.
  intros Htype Hcat Hhash Hdur Hrev Hfit.
  unfold CreateAuction.createAuctionData, Buffer.alloc. cbn [Nat.add].
  set (ipfs := bytes_of_string (CreateAuction.ipfsHash p)).
  set (ttl := bytes_of_string (CreateAuction.title p)).
  assert (Hipfs : length ipfs = String.length (CreateAuction.ipfsHash p))
    by apply bytes_of_string_length.
  assert (Httl : length ttl = String.length (CreateAuction.title p))
    by apply bytes_of_string_length.
  rewrite <- Hipfs, <- Httl in *.
  change (Buffer.copy Transactions.CREATE_AUCTION (repeat 0 1024) 0)
    with ([0] ++ repeat 0 (S 1022)).
  rewrite writeUInt8_at_end by (try reflexivity; lia). cbn [bind].
  change 1022%nat with (S 1021).
  rewrite writeUInt8_at_end by (try buffer_length; lia). cbn [bind].
  rewrite (copy_at_end _ (CreateAuction.reservePriceHash p) 1021 3) by buffer_length.
  rewrite (List.firstn_all2 (n := 1021)) by lia. rewrite Hhash.
  change (1021 - 32)%nat with (8 + 981)%nat.
  rewrite writeBigInt64LE_at_end by (try buffer_length; lia). cbn [bind].
  change 981%nat with (8 + 973)%nat.
  rewrite writeBigInt64LE_at_end by (try buffer_length; lia). cbn [bind].
  change 973%nat with (4 + 969)%nat.
  rewrite writeUInt32LE_at_end by (try buffer_length; lia). cbn [bind].
  rewrite (copy_at_end _ ipfs 969 55) by buffer_length.
  rewrite (List.firstn_all2 (n := 969)) by lia.
  replace (969 - length ipfs)%nat with (4 + (965 - length ipfs))%nat by lia.
  rewrite writeUInt32LE_at_end by (try buffer_length; lia). cbn [bind].
  rewrite (copy_at_end _ ttl (965 - length ipfs) (55 + length ipfs + 4)) by buffer_length.
  rewrite (List.firstn_all2 (n := (965 - length ipfs)%nat)) by lia.
  rewrite subarray_at_end by buffer_length.
  rewrite <- !List.app_assoc. reflexivity.
Qed.

Lemma createAuctionData_bytes_witness :
  let p := {| CreateAuction.seller := Transactions.Base58 "SellerWallet";
              CreateAuction.productType := 2;
              CreateAuction.category := 0;
              CreateAuction.reservePriceHash := repeat 5 32;
              CreateAuction.duration := 86400;
              CreateAuction.revealDuration := 3600;
              CreateAuction.ipfsHash := "QmHash";
              CreateAuction.title := "lot";
              CreateAuction.description := "a lot";
              CreateAuction.images := ["i.png"];
              CreateAuction.paymentMint := Transactions.Base58 BidRoute.SOL_MINT;
              CreateAuction.minBidIncrement := 1;
              CreateAuction.bidCollateral := 1;
              CreateAuction.nftMint := None |} in
  CreateAuction.createAuctionData p
  = Ok ([0; 2; 0] ++ repeat 5 32 ++ Prover.le_bytes 8 86400 ++ Prover.le_bytes 8 3600
          ++ Prover.le_bytes 4 6 ++ bytes_of_string "QmHash"
          ++ Prover.le_bytes 4 3 ++ bytes_of_string "lot").
Proof.
  cbv zeta.
  apply (createAuctionData_bytes
           {| CreateAuction.seller := Transactions.Base58 "SellerWallet";
              CreateAuction.productType := 2;
              CreateAuction.category := 0;
              CreateAuction.reservePriceHash := repeat 5 32;
              CreateAuction.duration := 86400;
              CreateAuction.revealDuration := 3600;
              CreateAuction.ipfsHash := "QmHash";
              CreateAuction.title := "lot";
              CreateAuction.description := "a lot";
              CreateAuction.images := ["i.png"];
              CreateAuction.paymentMint := Transactions.Base58 BidRoute.SOL_MINT;
              CreateAuction.minBidIncrement := 1;
              CreateAuction.bidCollateral := 1;
              CreateAuction.nftMint := None |});
    cbn; try lia; reflexivity.
Defined.



(** ** The connection pool: health checks and retries *)

Lemma healthCheckTick_on_primary getSlot pool :
  ConnectionPool.currentConnection (ConnectionPool.healthCheckTick getSlot pool)
  = ConnectionPool.primaryConnection ->
  ConnectionPool.consecutiveFailures (ConnectionPool.healthCheckTick getSlot pool) = 0%nat.
Proof.
  unfold ConnectionPool.healthCheckTick, ConnectionPool.checkHealth, ConnectionPool.tryPrimary.
  destruct (ConnectionPool.currentConnection pool) eqn:Hcur;
    destruct (getSlot ConnectionPool.fallbackConnection) eqn:Hfb;
    destruct (getSlot ConnectionPool.primaryConnection) eqn:Hpr;
    cbn; rewrite ?Hcur, ?Hpr; cbn; rewrite ?Hpr; cbn; try reflexivity; try discriminate.
Qed.

(** X7. After any run of firings of the health-check timer on a new pool, a
    pool that is on the primary has a failure counter of zero: failed probes
    of the primary are never accumulated from one firing to the next, so the
    counter cannot reach [maxFailures] while the primary is active. *)
Theorem primary_failures_are_not_accumulated
    (probes : list (ConnectionPool.Connection -> bool)) :
  let pool := ConnectionPool.healthCheckTicks probes ConnectionPool.constructor in
  ConnectionPool.currentConnection pool = ConnectionPool.primaryConnection ->
  ConnectionPool.consecutiveFailures pool = 0%nat.
Proof.
  cbv zeta. unfold ConnectionPool.healthCheckTicks.
  induction probes as [|getSlot probes IH] using List.rev_ind; [reflexivity|].
  rewrite List.fold_left_app. cbn [fold_left].
  apply healthCheckTick_on_primary.
Qed.

Lemma primary_failures_are_not_accumulated_witness :
  let down (c : ConnectionPool.Connection) := false in
  let up (c : ConnectionPool.Connection) := true in
  let pool := ConnectionPool.healthCheckTicks [down; down; up] ConnectionPool.constructor in
  ConnectionPool.currentConnection pool = ConnectionPool.primaryConnection /\
  ConnectionPool.consecutiveFailures pool = 0%nat.
Proof.
  cbv zeta. split; [reflexivity|].
  apply (primary_failures_are_not_accumulated
           [fun _ => false; fun _ => false; fun _ => true]).
  reflexivity.
Defined.

(** X8. While the pool is on the fallback and the fallback does not answer
    the probe, a firing of the timer leaves the pool on the fallback and adds
    one to the counter, whether or not the primary would answer: the primary
    is probed only after the fallback has answered. *)
Theorem fallback_down_blocks_switch_back getSlot pool :
  ConnectionPool.currentConnection pool = ConnectionPool.fallbackConnection ->
  getSlot ConnectionPool.fallbackConnection = false ->
  ConnectionPool.healthCheckTick getSlot pool
  = {| ConnectionPool.currentConnection := ConnectionPool.fallbackConnection;
       ConnectionPool.consecutiveFailures := S (ConnectionPool.consecutiveFailures pool) |}.
Proof.
  intros Hcur Hdown.
  unfold ConnectionPool.healthCheckTick, ConnectionPool.checkHealth.
  rewrite Hcur, Hdown. reflexivity.
Qed.

Lemma fallback_down_blocks_switch_back_witness :
  let only_primary c :=
    match c with
    | ConnectionPool.primaryConnection => true
    | ConnectionPool.fallbackConnection => false
    end in
  let pool := {| ConnectionPool.currentConnection := ConnectionPool.fallbackConnection;
                 ConnectionPool.consecutiveFailures := 4 |} in
  ConnectionPool.healthCheckTick only_primary pool
  = {| ConnectionPool.currentConnection := ConnectionPool.fallbackConnection;
       ConnectionPool.consecutiveFailures := 5 |}.
Proof.
  cbv zeta.
  apply (fallback_down_blocks_switch_back
           (fun c => match c with
                     | ConnectionPool.primaryConnection => true
                     | ConnectionPool.fallbackConnection => false
                     end)
           {| ConnectionPool.currentConnection := ConnectionPool.fallbackConnection;
              ConnectionPool.consecutiveFailures := 4 |});
    reflexivity.
Defined.

Section RetryRuns.

Context {T E : Type}.
Variable operation : nat -> ConnectionPool.Connection -> E + T.
Variable maxRetries : nat.

Abbreviation run_from := (ConnectionPool.retryLoop operation).





End RetryRuns.





(** ** The webhook: authenticity and what the handlers keep *)

Lemma unverified_batch_is_not_processed_witness :
  let request :=
    {| Webhook.body := "[]";
       Webhook.x_helius_signature :=
         Some "0000000000000000000000000000000000000000000000000000000000000000" |} in
  let db := Scenario.mirror Mirror.active 0 [Scenario.sealedBid] in
  snd (Webhook.POST "whsec" (fun _ => Ok [Webhook.BID_REVEALED Scenario.reveal5]) false
                    request db) = db /\
  (Http.status (fst (Webhook.POST "whsec" (fun _ => Ok [Webhook.BID_REVEALED Scenario.reveal5])
                                  false request db)) = 401 \/
   Http.status (fst (Webhook.POST "whsec" (fun _ => Ok [Webhook.BID_REVEALED Scenario.reveal5])
                                  false request db)) = 500).
Proof.
  cbv zeta.
  apply (unverified_batch_is_not_processed "whsec"
           (fun _ => Ok [Webhook.BID_REVEALED Scenario.reveal5]) false
           {| Webhook.body := "[]";
              Webhook.x_helius_signature :=
                Some "0000000000000000000000000000000000000000000000000000000000000000" |}).
  intros signature [= <-]. vm_compute. discriminate.
Defined.

Lemma forallb_same_bytes (bs : list Z) :
  forallb (fun xy => fst xy =? snd xy) (combine bs bs) = true.
Proof.
  induction bs as [|b bs IH]; [reflexivity|].
  cbn. rewrite Z.eqb_refl. exact IH.
Qed.

Lemma verifySignature_of_hmac secret body :
  Webhook.verifySignature secret body
    (hex_of_bytes (Sha256.hmac (bytes_of_string secret) (bytes_of_string body)))
  = Ok true.
Proof.
  unfold Webhook.verifySignature, Webhook.timingSafeEqual.
  rewrite Nat.eqb_refl. cbn [negb]. rewrite forallb_same_bytes. reflexivity.
Qed.

(** X12. A batch that carries the hexadecimal HMAC-SHA256 of its raw body
    under the shared secret is accepted: when the body parses as a list of
    events, the answer is 200 and the mirror is the one obtained by
    dispatching the events in order. *)
Theorem signed_batch_is_dispatched secret parse unique body events db :
  parse body = Ok events ->
  Webhook.POST secret parse unique
    {| Webhook.body := body;
       Webhook.x_helius_signature :=
         Some (hex_of_bytes (Sha256.hmac (bytes_of_string secret) (bytes_of_string body))) |}
    db
  = (Http.NextResponse_json Http.JSuccess 200, Webhook.process unique events db).
Proof.
  intros Hparse. unfold Webhook.POST. cbn [Webhook.x_helius_signature Webhook.body].
  pose proof (verifySignature_of_hmac secret body) as Hverify.
  pose proof (hex_of_bytes_length (Sha256.hmac (bytes_of_string secret) (bytes_of_string body)))
    as Hlen.
  destruct (hex_of_bytes (Sha256.hmac (bytes_of_string secret) (bytes_of_string body)))
    as [|c signature].
  - unfold Sha256.hmac in Hlen. cbv zeta in Hlen. rewrite sha256_length in Hlen.
    discriminate Hlen.
  - rewrite Hverify, Hparse. reflexivity.
Qed.

Lemma signed_batch_is_dispatched_witness :
  let db := Scenario.mirror Mirror.revealing 1 [Scenario.sealedBid] in
  Webhook.POST "whsec" (fun _ => Ok [Webhook.BID_REVEALED Scenario.reveal5]) false
    {| Webhook.body := "[reveal]";
       Webhook.x_helius_signature :=
         Some (hex_of_bytes (Sha256.hmac (bytes_of_string "whsec")
                                         (bytes_of_string "[reveal]"))) |}
    db
  = (Http.NextResponse_json Http.JSuccess 200,
     Webhook.process false [Webhook.BID_REVEALED Scenario.reveal5] db).
Proof.
  cbv zeta.
  apply (signed_batch_is_dispatched "whsec"
           (fun _ => Ok [Webhook.BID_REVEALED Scenario.reveal5]) false "[reveal]").
  reflexivity.
Defined.

Lemma Forall2_same {A : Type} (R : A -> A -> Prop) (rows : list A) :
  (forall a, R a a) -> Forall2 R rows rows.
Proof. intros Hrefl. induction rows; constructor; auto. Qed.

Lemma Forall2_update_where {A : Type} (R : A -> A -> Prop) matches (f : A -> A) rows :
  (forall a, R a a) -> (forall a, matches a = true -> R a (f a)) ->
  Forall2 R rows (Mirror.update_where matches f rows).
Proof.
  intros Hrefl Hf. induction rows as [|a rows IH]; cbn; constructor; [|exact IH].
  destruct (matches a) eqn:Hm; auto.
Qed.

Lemma Forall2_chain {A : Type} (R : A -> A -> Prop) :
  (forall a b c, R a b -> R b c -> R a c) ->
  forall l1 l2 l3, Forall2 R l1 l2 -> Forall2 R l2 l3 -> Forall2 R l1 l3.
Proof.
  intros Htrans l1 l2 l3 H12. revert l3.
  induction H12 as [|a b l1 l2 Hab H12 IH]; intros l3 H23; inversion H23; subst;
    constructor; eauto.
Qed.

Lemma dispatch_keeps_bids unique event db :
  Forall2 Rows.bid_kept (Mirror.bids db) (Mirror.bids (Webhook.dispatch unique event db)) /\
  Mirror.users (Webhook.dispatch unique event db) = Mirror.users db.
Proof.
  assert (Hrefl : forall b, Rows.bid_kept b b) by (intros b; split; auto).
  destruct event as [data|data|data|data| | |type]; cbn;
    try (split; [apply Forall2_same; exact Hrefl | reflexivity]).
  - unfold Webhook.handleAuctionCreated.
    destruct (Webhook.latest_pending _ _ _ _); cbn;
      (split; [apply Forall2_same; exact Hrefl | reflexivity]).
  - split; [|reflexivity].
    apply Forall2_update_where; [exact Hrefl|]. intros b _. split; auto.
  - split; [|reflexivity].
    apply Forall2_update_where; [exact Hrefl|]. intros b _. split; auto.
  - unfold Webhook.handleAuctionSettled.
    cbn [Mirror.with_auctions Mirror.auctions Mirror.users Mirror.fulfillments Mirror.bids].
    repeat match goal with
           | |- context [match ?x with _ => _ end] => destruct x
           end; cbn; (split; [apply Forall2_same; exact Hrefl | reflexivity]).
Qed.

(** X13. No batch of events creates or deletes a bid or a user: after any
    batch the table of bids has the same rows in the same order, each with
    the identifier, auction, bidder, commitment hash and time it had, and a
    bid that was revealed is still revealed; the table of users is
    unchanged. *)
Theorem events_keep_bids_and_users unique events db :
  Forall2 (fun old new =>
             Rows.bid_identity new = Rows.bid_identity old /\
             (Mirror.b_revealed old = true -> Mirror.b_revealed new = true))
          (Mirror.bids db) (Mirror.bids (Webhook.process unique events db)) /\
  Mirror.users (Webhook.process unique events db) = Mirror.users db.
Proof.
  revert db. induction events as [|event events IH]; intros db.
  - cbn. split; [|reflexivity]. apply Forall2_same. intros b; split; auto.
  - change (Webhook.process unique (event :: events) db)
      with (Webhook.process unique events (Webhook.dispatch unique event db)).
    destruct (dispatch_keeps_bids unique event db) as [Hstep Husers].
    destruct (IH (Webhook.dispatch unique event db)) as [Hrest Husers'].
    split; [|congruence].
    eapply (Forall2_chain Rows.bid_kept); [|exact Hstep|exact Hrest].
    intros a b c [Hab Hab'] [Hbc Hbc']. split; [congruence | auto].
Qed.

(** X15. Events are dropped without a trace in two cases. A reveal whose
    [bidId] is the [on_chain_id] of no bid changes nothing in the mirror.
    An event of a type without a handler (delivery confirmed, dispute
    raised, or any unknown type) changes nothing and does not stop the
    batch: the batch gives the mirror it gives without that event. *)
Theorem unmatched_events_are_dropped :
  (forall data db,
     Forall (fun b => Mirror.is_id (Mirror.b_on_chain_id b) (Webhook.revealed_bidId data) = false)
            (Mirror.bids db) ->
     Webhook.handleBidRevealed data db = db) /\
  (forall unique before event after db,
     Rows.has_no_handler event = true ->
     Webhook.process unique (before ++ event :: after) db
     = Webhook.process unique (before ++ after) db).
Proof.
  split.
  - intros data db Hnone. unfold Webhook.handleBidRevealed.
    cbv zeta.
    replace (Mirror.update_where _ _ (Mirror.bids db)) with (Mirror.bids db);
      [apply with_bids_same|].
    induction Hnone as [|b bs Hb Hnone IH]; [reflexivity|].
    cbn. rewrite Hb. f_equal. exact IH.
  - intros unique before event after db Hev. unfold Webhook.process.
    rewrite !List.fold_left_app. cbn [fold_left].
    destruct event; try discriminate Hev; reflexivity.
Qed.

Lemma unmatched_events_are_dropped_witness :
  let early := {| Webhook.revealed_bidId := "bid-2"; Webhook.revealed_amount := 9 |} in
  let db := Scenario.mirror Mirror.active 1 [Scenario.sealedBid] in
  Webhook.handleBidRevealed early db = db /\
  Webhook.process false
    ([Webhook.BID_REVEALED Scenario.reveal5] ++ Webhook.OtherType "NFT_SALE" :: []) db
  = Webhook.process false ([Webhook.BID_REVEALED Scenario.reveal5] ++ []) db.
Proof.
  cbv zeta. split.
  - apply (proj1 unmatched_events_are_dropped
             {| Webhook.revealed_bidId := "bid-2"; Webhook.revealed_amount := 9 |}).
    repeat constructor.
  - apply (proj2 unmatched_events_are_dropped false
             [Webhook.BID_REVEALED Scenario.reveal5] (Webhook.OtherType "NFT_SALE") []).
    reflexivity.
Defined.

(** ** The creation and settlement handlers *)




Lemma fulfillments_after_settlement unique data db :
  Mirror.fulfillments (Webhook.handleAuctionSettled unique data db)
  = match
      Mirror.single (AuctionRoute.by_on_chain_id (Webhook.settled_auctionId data)
                                                 (Mirror.auctions db)),
      Mirror.single
        (filter (fun u => existsb (String.eqb (Webhook.winner data))
                                  (Mirror.u_wallet_addresses u) = true)
                (Mirror.users db))
    with
    | Some auction, Some winnerUser =>
        Webhook.insert_fulfillment unique
          {| Mirror.f_auction_id := Webhook.settled_auctionId data;
             Mirror.f_buyer_id := Mirror.u_id winnerUser;
             Mirror.f_seller_id := Mirror.a_seller_id auction;
             Mirror.f_status := Mirror.fulfillment_pending |}
          (Mirror.fulfillments db)
    | _, _ => Mirror.fulfillments db
    end.
Proof.
  unfold Webhook.handleAuctionSettled.
  cbn [Mirror.with_auctions Mirror.auctions Mirror.users Mirror.fulfillments].
  fold (AuctionRoute.by_on_chain_id (Webhook.settled_auctionId data)
          (Mirror.update_where
             (fun a => Mirror.is_id (Mirror.a_on_chain_id a) (Webhook.settled_auctionId data))
             (Mirror.set_a_status Mirror.settled) (Mirror.auctions db))).
  rewrite by_on_chain_id_update by reflexivity.
  rewrite single_map.
  destruct (Mirror.single (AuctionRoute.by_on_chain_id (Webhook.settled_auctionId data)
                                                       (Mirror.auctions db))) as [auction|];
    cbn [fmap option_fmap option_map];
    destruct (Mirror.single
                (filter (fun u => existsb (String.eqb (Webhook.winner data))
                                          (Mirror.u_wallet_addresses u) = true)
                        (Mirror.users db))) as [winnerUser|]; reflexivity.
Qed.

(** X16. The settlement handler inserts at most one Fulfillment row, at the
    end of the table, and only when exactly one auction row has the settled
    auction's on-chain identifier and exactly one user has the winner's
    wallet address. The row names the auction, that user as buyer and the
    seller of that auction, with status pending. An unknown winner or an
    unknown auction gives no row. *)
Theorem settlement_inserts_one_fulfillment unique data db :
  let before := Mirror.fulfillments db in
  let after := Mirror.fulfillments (Webhook.handleAuctionSettled unique data db) in
  after = before \/
  exists auction winnerUser,
    AuctionRoute.by_on_chain_id (Webhook.settled_auctionId data) (Mirror.auctions db)
    = [auction] /\
    filter (fun u => existsb (String.eqb (Webhook.winner data))
                             (Mirror.u_wallet_addresses u) = true) (Mirror.users db)
    = [winnerUser] /\
    after = before ++ [ {| Mirror.f_auction_id := Webhook.settled_auctionId data;
                           Mirror.f_buyer_id := Mirror.u_id winnerUser;
                           Mirror.f_seller_id := Mirror.a_seller_id auction;
                           Mirror.f_status := Mirror.fulfillment_pending |} ].
Proof.
  cbv zeta. rewrite fulfillments_after_settlement.
  destruct (AuctionRoute.by_on_chain_id (Webhook.settled_auctionId data) (Mirror.auctions db))
    as [|auction [|? ?]] eqn:Hauction; cbn [Mirror.single]; auto.
  destruct (filter _ (Mirror.users db)) as [|winnerUser [|? ?]] eqn:Huser;
    cbn [Mirror.single]; auto.
  unfold Webhook.insert_fulfillment.
  destruct (unique && existsb _ (Mirror.fulfillments db)); [left; reflexivity|].
  right. exists auction, winnerUser. auto.
Qed.

(** ** The auction route: who can write *)

Ltac refused_unchanged :=
  cbn;
  (split; [reflexivity | split; [reflexivity | split; [reflexivity|]]]);
  let H := fresh in intros H; contradiction H; reflexivity.

(** X17. PATCH and DELETE never touch the bids, the fulfillments or the
    users, and they change the mirror only for the owner: whenever the
    mirror after the request differs from the mirror before, exactly one
    auction row has the requested on-chain identifier and the session's user
    is the [privy_id] of that auction's seller. *)
Theorem only_the_owner_changes_an_auction :
  (forall session auctionId json db,
     let r := AuctionRoute.PATCH session auctionId json db in
     Mirror.bids (snd r) = Mirror.bids db /\
     Mirror.fulfillments (snd r) = Mirror.fulfillments db /\
     Mirror.users (snd r) = Mirror.users db /\
     (snd r <> db ->
      exists auction owner,
        Mirror.single (AuctionRoute.by_on_chain_id auctionId (Mirror.auctions db)) = Some auction /\
        AuctionRoute.seller_of db auction = Some owner /\
        session = Some (Mirror.u_privy_id owner))) /\
  (forall session auctionId db,
     let r := AuctionRoute.DELETE session auctionId db in
     Mirror.bids (snd r) = Mirror.bids db /\
     Mirror.fulfillments (snd r) = Mirror.fulfillments db /\
     Mirror.users (snd r) = Mirror.users db /\
     (snd r <> db ->
      exists auction owner,
        Mirror.single (AuctionRoute.by_on_chain_id auctionId (Mirror.auctions db)) = Some auction /\
        AuctionRoute.seller_of db auction = Some owner /\
        session = Some (Mirror.u_privy_id owner))).
Proof.
  split.
  - intros session auctionId json db. cbv zeta. unfold AuctionRoute.PATCH.
    destruct json as [updates|e];
      [|refused_unchanged].
    destruct session as [user_id|];
      [|refused_unchanged].
    destruct (Mirror.single (AuctionRoute.by_on_chain_id auctionId (Mirror.auctions db)))
      as [auction|] eqn:Hsingle;
      [|refused_unchanged].
    destruct (AuctionRoute.seller_of db auction) as [owner|] eqn:Howner;
      [|refused_unchanged].
    destruct (String.eqb (Mirror.u_privy_id owner) user_id) eqn:Heq; cbn [negb];
      [|refused_unchanged].
    apply String.eqb_eq in Heq. subst user_id.
    destruct (negb (Mirror.AuctionStatus_eqb (Mirror.a_status auction) Mirror.pending)
              && negb (Mirror.AuctionStatus_eqb (Mirror.a_status auction) Mirror.active));
      [refused_unchanged|].
    destruct (Mirror.single
                (AuctionRoute.by_on_chain_id auctionId
                   (Mirror.update_where
                      (fun a => Mirror.is_id (Mirror.a_on_chain_id a) auctionId)
                      (AuctionRoute.apply_updates updates) (Mirror.auctions db))));
      cbn; (split; [reflexivity | split; [reflexivity | split; [reflexivity|]]]);
      intros _; exists auction, owner; auto.
  - intros session auctionId db. cbv zeta. unfold AuctionRoute.DELETE.
    destruct session as [user_id|];
      [|refused_unchanged].
    destruct (Mirror.single (AuctionRoute.by_on_chain_id auctionId (Mirror.auctions db)))
      as [auction|] eqn:Hsingle;
      [|refused_unchanged].
    destruct (AuctionRoute.seller_of db auction) as [owner|] eqn:Howner;
      [|refused_unchanged].
    destruct (String.eqb (Mirror.u_privy_id owner) user_id) eqn:Heq; cbn [negb];
      [|refused_unchanged].
    apply String.eqb_eq in Heq. subst user_id.
    destruct (0 <? Mirror.a_bid_count auction); [refused_unchanged|].
    cbn. (split; [reflexivity | split; [reflexivity | split; [reflexivity|]]]).
    intros _. exists auction, owner. auto.
Qed.

Lemma only_the_owner_changes_an_auction_witness :
  let back := {| AuctionRoute.upd_status := Some Mirror.pending;
                 AuctionRoute.upd_bid_count := None;
                 AuctionRoute.upd_title := None |} in
  let db := Scenario.mirror Mirror.active 0 [] in
  snd (AuctionRoute.PATCH (Some "privy-seller") "auction-A" (Ok back) db) <> db /\
  exists auction owner,
    Mirror.single (AuctionRoute.by_on_chain_id "auction-A" (Mirror.auctions db)) = Some auction /\
    AuctionRoute.seller_of db auction = Some owner /\
    Some "privy-seller" = Some (Mirror.u_privy_id owner).
Proof.
  cbv zeta.
  assert (Hchanged :
            snd (AuctionRoute.PATCH (Some "privy-seller") "auction-A"
                   (Ok {| AuctionRoute.upd_status := Some Mirror.pending;
                          AuctionRoute.upd_bid_count := None;
                          AuctionRoute.upd_title := None |})
                   (Scenario.mirror Mirror.active 0 []))
            <> Scenario.mirror Mirror.active 0 [])
    by (vm_compute; discriminate).
  split; [exact Hchanged|].
  exact (proj2 (proj2 (proj2 (proj1 only_the_owner_changes_an_auction
                                (Some "privy-seller") "auction-A"
                                (Ok {| AuctionRoute.upd_status := Some Mirror.pending;
                                       AuctionRoute.upd_bid_count := None;
                                       AuctionRoute.upd_title := None |})
                                (Scenario.mirror Mirror.active 0 []))))
           Hchanged).
Defined.

(** ** The bid route: what a submission can do *)

Lemma AuctionStatus_eqb_eq a b : Mirror.AuctionStatus_eqb a b = true -> a = b.
Proof. destruct a, b; cbn; congruence. Qed.

Lemma verifyProof_true verifyFinalProof proof publicInputs :
  Verifier.verifyProof verifyFinalProof proof publicInputs = true ->
  verifyFinalProof proof publicInputs = Verifier.Returns true.
Proof.
  unfold Verifier.verifyProof.
  destruct (verifyFinalProof proof publicInputs) as [[|]|]; congruence.
Qed.

(** A submission either leaves the mirror as it was and is not answered
    200, or it passed every check and appended one bid. *)
Lemma bid_POST_cases env session auctionId json st :
  let r := BidRoute.POST env session auctionId json st in
  (BidRoute.db (snd r) = BidRoute.db st /\ Http.status (fst r) <> 200) \/
  exists body user_id user auction result,
    json = Ok body /\
    BidRoute.submitBidSchema body = true /\
    session = Some user_id /\
    Mirror.single (filter (fun u => String.eqb (Mirror.u_privy_id u) user_id = true)
                          (Mirror.users (BidRoute.db st))) = Some user /\
    Mirror.single (AuctionRoute.by_on_chain_id auctionId (Mirror.auctions (BidRoute.db st)))
    = Some auction /\
    Mirror.a_status auction = Mirror.active /\
    BidRoute.now env <= Mirror.a_ends_at auction /\
    Mirror.single (Rows.bids_of auctionId (Mirror.u_id user) (Mirror.bids (BidRoute.db st)))
    = None /\
    BidRoute.verifyFinalProof env (BidRoute.proof body) (BidRoute.commitmentHash body)
    = Verifier.Returns true /\
    fst r = Http.NextResponse_json
              (Http.JBid (Z.of_nat (length (Mirror.bids (BidRoute.db st))) + 1)
                         (Transactions.transaction result)) 200 /\
    BidRoute.db (snd r)
    = Mirror.with_bids (BidRoute.db st)
        (Mirror.bids (BidRoute.db st)
         ++ [ {| Mirror.b_id := Z.of_nat (length (Mirror.bids (BidRoute.db st))) + 1;
                 Mirror.b_auction_id := auctionId;
                 Mirror.b_bidder_id := Mirror.u_id user;
                 Mirror.b_commitment_hash := BidRoute.commitmentHash body;
                 Mirror.b_on_chain_id := None;
                 Mirror.b_revealed := false;
                 Mirror.b_amount := None;
                 Mirror.b_timestamp := BidRoute.now env |} ]).
Proof.
  cbv zeta. unfold BidRoute.POST.
  destruct json as [body|e]; [|left; cbn; split; [reflexivity | discriminate]].
  destruct (BidRoute.submitBidSchema body) eqn:Hschema; cbn [negb];
    [|left; cbn; split; [reflexivity | discriminate]].
  destruct session as [user_id|]; [|left; cbn; split; [reflexivity | discriminate]].
  destruct (RateLimit.checkRateLimit _ None (BidRoute.now env) (BidRoute.redis st))
    as [[limit|e] redis']; [|left; cbn; split; [reflexivity | discriminate]].
  cbn [BidRoute.with_redis BidRoute.db BidRoute.redis].
  destruct (Mirror.single (filter (fun u => String.eqb (Mirror.u_privy_id u) user_id = true)
                                  (Mirror.users (BidRoute.db st)))) as [user|] eqn:Huser;
    [|left; cbn; split; [reflexivity | discriminate]].
  destruct (Mirror.u_wallet_addresses user) as [|wallet wallets];
    [left; cbn; split; [reflexivity | discriminate]|].
  destruct (BidRoute.is_PublicKey env wallet); cbn [negb];
    [|left; cbn; split; [reflexivity | discriminate]].
  destruct (Mirror.single (AuctionRoute.by_on_chain_id auctionId
                             (Mirror.auctions (BidRoute.db st)))) as [auction|] eqn:Hauction;
    [|left; cbn; split; [reflexivity | discriminate]].
  destruct (Mirror.AuctionStatus_eqb (Mirror.a_status auction) Mirror.active) eqn:Hactive;
    cbn [negb]; [|left; cbn; split; [reflexivity | discriminate]].
  destruct (Mirror.a_ends_at auction <? BidRoute.now env) eqn:Hended;
    [left; cbn; split; [reflexivity | discriminate]|].
  fold (Rows.bids_of auctionId (Mirror.u_id user) (Mirror.bids (BidRoute.db st))).
  destruct (Mirror.single (Rows.bids_of auctionId (Mirror.u_id user)
                                        (Mirror.bids (BidRoute.db st)))) as [existing|] eqn:Hexisting;
    [left; cbn; split; [reflexivity | discriminate]|].
  destruct (Verifier.verifyProof (BidRoute.verifyFinalProof env) (BidRoute.proof body)
                                 (BidRoute.commitmentHash body)) eqn:Hvalid;
    cbn [negb]; [|left; cbn; split; [reflexivity | discriminate]].
  destruct (BidRoute.is_PublicKey env auctionId); cbn [negb];
    [|left; cbn; split; [reflexivity | discriminate]].
  destruct (BidRoute.is_PublicKey env (default BidRoute.SOL_MINT (Mirror.a_payment_mint auction)));
    cbn [negb]; [|left; cbn; split; [reflexivity | discriminate]].
  destruct (Transactions.buildSubmitBidTransaction _ _) as [result|e];
    [|left; cbn; split; [reflexivity | discriminate]].
  right. exists body, user_id, user, auction, result.
  cbn [fst snd BidRoute.db BidRoute.with_db Mirror.b_id].
  repeat split; try reflexivity; try assumption.
  - apply AuctionStatus_eqb_eq. exact Hactive.
  - apply Z.ltb_ge in Hended. exact Hended.
  - apply verifyProof_true. exact Hvalid.
Qed.

Lemma bids_of_snoc auctionId bidderId rows b :
  Rows.bids_of auctionId bidderId (rows ++ [b])
  = Rows.bids_of auctionId bidderId rows
    ++ (if String.eqb (Mirror.b_auction_id b) auctionId
           && String.eqb (Mirror.b_bidder_id b) bidderId
        then [b] else []).
Proof.
  unfold Rows.bids_of. rewrite filter_app. f_equal.
  destruct (String.eqb (Mirror.b_auction_id b) auctionId
            && String.eqb (Mirror.b_bidder_id b) bidderId) eqn:Hm.
  - rewrite filter_cons_True by exact Hm. reflexivity.
  - rewrite filter_cons_False by (rewrite Hm; discriminate). reflexivity.
Qed.

(** X18. The bid route keeps the table of bids free of duplicates: if no
    bidder has more than one bid on any auction before a submission, none has
    after it, whatever the request and whatever the route answers. *)
Theorem bid_POST_keeps_one_bid_per_bidder env session auctionId json st :
  (forall a b, (length (Rows.bids_of a b (Mirror.bids (BidRoute.db st))) <= 1)%nat) ->
  forall a b,
    (length (Rows.bids_of a b
               (Mirror.bids (BidRoute.db (snd (BidRoute.POST env session auctionId json st)))))
     <= 1)%nat.
Proof.
  intros Hunique a b.
  destruct (bid_POST_cases env session auctionId json st)
    as [[Hsame _] | (body & user_id & user & auction & result & _ & _ & _ & _ & _ & _ & _
                     & Hnone & _ & _ & Hdb)].
  - rewrite Hsame. apply Hunique.
  - rewrite Hdb. cbn [Mirror.with_bids Mirror.bids].
    rewrite bids_of_snoc. cbn [Mirror.b_auction_id Mirror.b_bidder_id].
    rewrite List.length_app.
    destruct (String.eqb auctionId a && String.eqb (Mirror.u_id user) b) eqn:Hm.
    + apply andb_true_iff in Hm as [Ha Hb].
      apply String.eqb_eq in Ha, Hb. subst a b.
      specialize (Hunique auctionId (Mirror.u_id user)).
      destruct (Rows.bids_of auctionId (Mirror.u_id user) (Mirror.bids (BidRoute.db st)))
        as [|x [|y rest]]; cbn in *; [lia | discriminate Hnone | lia].
    + specialize (Hunique a b). cbn. lia.
Qed.

Lemma bid_POST_keeps_one_bid_per_bidder_witness :
  let r := BidRoute.POST (Scenario.env_at (Verifier.Returns true) 0) (Some "privy-bidder")
                         "auction-A" (Ok Scenario.bidBody) Scenario.fresh in
  (length (Rows.bids_of "auction-A" "u-bidder" (Mirror.bids (BidRoute.db (snd r)))) <= 1)%nat.
Proof.
  cbv zeta.
  apply (bid_POST_keeps_one_bid_per_bidder (Scenario.env_at (Verifier.Returns true) 0)
           (Some "privy-bidder") "auction-A" (Ok Scenario.bidBody) Scenario.fresh).
  intros a b. cbn. lia.
Defined.





(** ** The bid route: reading one's bids *)

Lemma insert_by_timestamp_perm b rows :
  Permutation (BidsGet.insert_by_timestamp b rows) (b :: rows).
Proof.
  induction rows as [|x rows IH]; cbn; [reflexivity|].
  destruct (Mirror.b_timestamp x <=? Mirror.b_timestamp b); [reflexivity|].
  rewrite IH. apply perm_swap.
Qed.

Lemma order_by_timestamp_desc_perm rows :
  Permutation (BidsGet.order_by_timestamp_desc rows) rows.
Proof.
  induction rows as [|b rows IH]; cbn; [reflexivity|].
  rewrite insert_by_timestamp_perm. constructor. exact IH.
Qed.

Lemma insert_by_timestamp_sorted b rows :
  StronglySorted (fun x y => Mirror.b_timestamp y <= Mirror.b_timestamp x) rows ->
  StronglySorted (fun x y => Mirror.b_timestamp y <= Mirror.b_timestamp x)
                 (BidsGet.insert_by_timestamp b rows).
Proof.
  induction rows as [|x rows IH]; intros Hsorted; cbn.
  - repeat constructor.
  - apply StronglySorted_inv in Hsorted as [Hrest Hx].
    destruct (Mirror.b_timestamp x <=? Mirror.b_timestamp b) eqn:Hcmp.
    + apply Z.leb_le in Hcmp. constructor.
      * constructor; assumption.
      * constructor; [exact Hcmp|].
        eapply List.Forall_impl; [|exact Hx]. cbn. intros y Hy. lia.
    + apply Z.leb_gt in Hcmp. constructor; [apply IH; exact Hrest|].
      eapply Permutation_Forall; [symmetry; apply insert_by_timestamp_perm|].
      constructor; [lia | exact Hx].
Qed.

Lemma bids_of_belong auctionId bidderId rows :
  Forall (fun b => Mirror.b_auction_id b = auctionId /\ Mirror.b_bidder_id b = bidderId)
         (Rows.bids_of auctionId bidderId rows).
Proof.
  unfold Rows.bids_of. induction rows as [|b rows IH]; [constructor|].
  destruct (String.eqb (Mirror.b_auction_id b) auctionId
            && String.eqb (Mirror.b_bidder_id b) bidderId) eqn:Hm.
  - rewrite filter_cons_True by exact Hm. constructor; [|exact IH].
    apply andb_true_iff in Hm as [Ha Hb]. split; apply String.eqb_eq; assumption.
  - rewrite filter_cons_False by (rewrite Hm; discriminate). exact IH.
Qed.

(** X21. When the bids of an auction are read and the answer is 200, the
    session's user was found exactly once, and the rows returned are exactly
    the bids of that user on that auction (each once, none of another bidder
    or auction), latest first. *)
Theorem bids_GET_returns_own_bids session auctionId db :
  BidsGet.status (BidsGet.GET session auctionId db) = 200 ->
  exists user_id user rows,
    session = Some user_id /\
    Mirror.single (filter (fun u => String.eqb (Mirror.u_privy_id u) user_id = true)
                          (Mirror.users db)) = Some user /\
    BidsGet.body (BidsGet.GET session auctionId db) = BidsGet.BBids rows /\
    Permutation rows (Rows.bids_of auctionId (Mirror.u_id user) (Mirror.bids db)) /\
    Forall (fun b => Mirror.b_auction_id b = auctionId
                     /\ Mirror.b_bidder_id b = Mirror.u_id user) rows /\
    StronglySorted (fun x y => Mirror.b_timestamp y <= Mirror.b_timestamp x) rows.
Proof.
  unfold BidsGet.GET. intros Hok.
  destruct session as [user_id|]; [|discriminate Hok].
  destruct (Mirror.single _) as [user|] eqn:Huser; [|discriminate Hok].
  exists user_id, user, (BidsGet.order_by_timestamp_desc
                           (Rows.bids_of auctionId (Mirror.u_id user) (Mirror.bids db))).
  split; [reflexivity|]. split; [exact Huser|]. split; [reflexivity|].
  split; [|split].
  - apply order_by_timestamp_desc_perm.
  - eapply Permutation_Forall; [symmetry; apply order_by_timestamp_desc_perm|].
    apply bids_of_belong.
  - unfold BidsGet.order_by_timestamp_desc. clear Hok Huser.
    induction (Rows.bids_of auctionId (Mirror.u_id user) (Mirror.bids db)) as [|b rows IH];
      cbn; [constructor | apply insert_by_timestamp_sorted; exact IH].
Qed.

Lemma bids_GET_returns_own_bids_witness :
  let other := {| Mirror.b_id := 2; Mirror.b_auction_id := "auction-A";
                  Mirror.b_bidder_id := "u-other"; Mirror.b_commitment_hash := "c";
                  Mirror.b_on_chain_id := None; Mirror.b_revealed := false;
                  Mirror.b_amount := None; Mirror.b_timestamp := 3000 |} in
  let db := Scenario.mirror Mirror.active 2 [other; Scenario.sealedBid] in
  BidsGet.GET (Some "privy-bidder") "auction-A" db
  = {| BidsGet.status := 200; BidsGet.body := BidsGet.BBids [Scenario.sealedBid] |} /\
  exists user_id user rows,
    Some "privy-bidder" = Some user_id /\
    Mirror.single (filter (fun u => String.eqb (Mirror.u_privy_id u) user_id = true)
                          (Mirror.users db)) = Some user /\
    BidsGet.body (BidsGet.GET (Some "privy-bidder") "auction-A" db) = BidsGet.BBids rows /\
    Permutation rows (Rows.bids_of "auction-A" (Mirror.u_id user) (Mirror.bids db)) /\
    Forall (fun b => Mirror.b_auction_id b = "auction-A"
                     /\ Mirror.b_bidder_id b = Mirror.u_id user) rows /\
    StronglySorted (fun x y => Mirror.b_timestamp y <= Mirror.b_timestamp x) rows.
Proof.
  cbv zeta. split; [reflexivity|].
  apply (bids_GET_returns_own_bids (Some "privy-bidder") "auction-A").
  reflexivity.
Defined.

(** ** Hexadecimal digests between the prover and the bid route *)

Lemma hex_value_hex_digit n :
  0 <= n < 16 -> Buffer.hex_value (hex_digit n) = Some n.
Proof.
  intros Hn. destruct n as [|p|p]; [reflexivity| |lia].
  do 4 (try destruct p as [p|p|]); try reflexivity; lia.
Qed.

Lemma from_hex_hex_of_bytes bs :
  Forall (fun b => 0 <= b < 256) bs -> Buffer.from_hex (hex_of_bytes bs) = bs.
Proof.
  induction 1 as [|b bs Hb _ IH]; [reflexivity|].
  cbn [hex_of_bytes Buffer.from_hex].
  change 15 with (Z.ones 4). rewrite Z.land_ones by lia. rewrite Z.shiftr_div_pow2 by lia.
  change (2 ^ 4) with 16.
  rewrite !hex_value_hex_digit by (Z.div_mod_to_equations; lia).
  rewrite IH. f_equal. Z.div_mod_to_equations; lia.
Qed.

Lemma be_bytes_range n x : Forall (fun b => 0 <= b < 256) (Sha256.be_bytes n x).
Proof.
  induction n as [|n IH]; cbn [Sha256.be_bytes]; constructor; [|exact IH].
  apply Z.mod_pos_bound. lia.
Qed.

Lemma sha256_bytes msg : Forall (fun b => 0 <= b < 256) (Sha256.sha256 msg).
Proof.
  unfold Sha256.sha256. cbv zeta.
  induction (fold_left Sha256.compress _ Sha256.H0) as [|w ws IH]; [constructor|].
  cbn [flat_map]. apply Forall_app. split; [apply be_bytes_range | exact IH].
Qed.

(** X22. The hexadecimal hashes the prover hands out survive the bid route's
    decoding: for an amount within 64 unsigned bits the commitment decodes to
    the 32 digest bytes of amount, salt and key, and a proof hash decodes to
    the 32 digest bytes of the proof, so the submit-bid instruction's
    32-byte fields hold the digests in full. *)
Theorem prover_hashes_decode_to_digests junk bidAmount salt bidderPubkey proof :
  0 <= bidAmount < 2 ^ 64 ->
  exists commitment,
    Prover.generateCommitmentHash junk bidAmount salt bidderPubkey = Ok commitment /\
    Buffer.from_hex commitment
    = Sha256.sha256 (Prover.le_bytes 8 bidAmount ++ salt ++ bytes_of_string bidderPubkey) /\
    Buffer.from_hex (Prover.generateProofHash proof) = Sha256.sha256 proof /\
    length (Buffer.from_hex commitment) = 32%nat /\
    length (Buffer.from_hex (Prover.generateProofHash proof)) = 32%nat.
Proof.
  intros Hv. unfold Prover.generateCommitmentHash, Prover.generateProofHash.
  rewrite (writeBigUInt64LE_le_bytes junk bidAmount Hv). cbn [bind].
  unfold Prover.digest_hex, Prover.update, Prover.createHash. cbn [Prover.fed app].
  rewrite <- !List.app_assoc.
  eexists. split; [reflexivity|].
  rewrite !from_hex_hex_of_bytes by apply sha256_bytes.
  rewrite !sha256_length. repeat split; reflexivity.
Qed.

Lemma prover_hashes_decode_to_digests_witness :
  0 <= 7 < 2 ^ 64 /\
  exists commitment,
    Prover.generateCommitmentHash [9; 9; 9] 7 Scenario.salt Scenario.bidderKey = Ok commitment /\
    Buffer.from_hex commitment
    = Sha256.sha256 (Prover.le_bytes 8 7 ++ Scenario.salt ++ bytes_of_string Scenario.bidderKey) /\
    Buffer.from_hex (Prover.generateProofHash [1; 2; 3]) = Sha256.sha256 [1; 2; 3] /\
    length (Buffer.from_hex commitment) = 32%nat /\
    length (Buffer.from_hex (Prover.generateProofHash [1; 2; 3])) = 32%nat.
Proof.
  split; [lia|].
  apply (prover_hashes_decode_to_digests [9; 9; 9] 7 Scenario.salt Scenario.bidderKey [1; 2; 3]).
  lia.
Defined.

(** ** Rate-limit keys *)

Lemma append_same_prefix (p a b : string) : p +:+ a = p +:+ b -> a = b.
Proof.
  induction p as [|c p IH]; cbn [String.append]; [auto|].
  intros H. injection H as H. auto.
Qed.

(** X23. The Redis key read for a limiter and an identifier determines both:
    two limiters, or two identifiers of one limiter, never share a counter,
    whatever characters the identifier holds. *)
Theorem rate_limit_keys_are_separate t1 i1 t2 i2 :
  RateLimitInfo.key t1 i1 = RateLimitInfo.key t2 i2 -> t1 = t2 /\ i1 = i2.
Proof.
  unfold RateLimitInfo.key.
  destruct t1, t2; intros Hkey; try discriminate Hkey;
    (split; [reflexivity|]);
    apply append_same_prefix in Hkey; apply append_same_prefix in Hkey; exact Hkey.
Qed.

Lemma rate_limit_keys_are_separate_witness :
  RateLimitInfo.key RateLimit.bidSubmission "user:1"
  = RateLimitInfo.key RateLimit.bidSubmission "user:1" /\
  RateLimit.bidSubmission = RateLimit.bidSubmission /\ "user:1" = "user:1".
Proof.
  split; [reflexivity|].
  apply (rate_limit_keys_are_separate RateLimit.bidSubmission "user:1"
                                      RateLimit.bidSubmission "user:1").
  reflexivity.
Defined.

(** ** Confirmation followed by reveal *)

(** X24. When a bid is confirmed on chain and the same on-chain bid is then
    revealed, every mirrored bid of that auction with the confirmed
    commitment hash ends up revealed with the reported amount and carrying
    the on-chain id, whichever bidder stored it. *)
Theorem confirmed_bid_is_revealed submitted revealed db :
  Webhook.revealed_bidId revealed = Webhook.submitted_bidId submitted ->
  Forall2
    (fun old new =>
       Mirror.b_commitment_hash old = Webhook.submitted_commitmentHash submitted ->
       Mirror.b_auction_id old = Webhook.submitted_auctionId submitted ->
       new = Mirror.set_b_revealed (Webhook.revealed_amount revealed)
               (Mirror.set_b_on_chain_id (Webhook.submitted_bidId submitted) old))
    (Mirror.bids db)
    (Mirror.bids (Webhook.handleBidRevealed revealed (Webhook.handleBidSubmitted submitted db))).
Proof.
  intros Hid. unfold Webhook.handleBidRevealed, Webhook.handleBidSubmitted.
  cbn. unfold Mirror.update_where. rewrite Hid.
  induction (Mirror.bids db) as [|b rows IH]; cbn [map]; constructor; [|exact IH].
  intros Hhash Hauction.
  rewrite Hhash, Hauction, !String.eqb_refl. cbn. rewrite String.eqb_refl. reflexivity.
Qed.

Lemma confirmed_bid_is_revealed_witness :
  let db := Scenario.mirror Mirror.revealing 0 [Scenario.sealedBid] in
  Webhook.revealed_bidId Scenario.reveal5 = Webhook.submitted_bidId Scenario.submitted1 /\
  Forall2
    (fun old new =>
       Mirror.b_commitment_hash old = Webhook.submitted_commitmentHash Scenario.submitted1 ->
       Mirror.b_auction_id old = Webhook.submitted_auctionId Scenario.submitted1 ->
       new = Mirror.set_b_revealed (Webhook.revealed_amount Scenario.reveal5)
               (Mirror.set_b_on_chain_id (Webhook.submitted_bidId Scenario.submitted1) old))
    (Mirror.bids db)
    (Mirror.bids (Webhook.handleBidRevealed Scenario.reveal5
                    (Webhook.handleBidSubmitted Scenario.submitted1 db))).
Proof.
  cbv zeta. split; [reflexivity|].
  apply (confirmed_bid_is_revealed Scenario.submitted1 Scenario.reveal5).
  reflexivity.
Defined.
